(** * AI_OVERCLOCK: record store, telemetry capture and model call

    A shallow embedding of [data_manager.py], [system_monitor.py] and
    [llm_interaction.py].

    Python values that reach the JSON files are modelled by the type
    [json]; dictionaries are association lists in insertion order, the
    order [json.dump] writes them in.  The recommendation directory is the
    list of its entries in the order [os.listdir] enumerates them.  Code
    that can raise runs in a state-and-exception monad whose state survives
    a raise, as the mutations of a Python object do.

    Conventions of the embedding, fixed here once:
    - the text [json.dump] writes for a value [j] is the file content
      [Json j], on which [json.load] returns [j]; content on which
      [json.load] raises is [Garbage], with the exception raised;
    - a Python [float] is idealised as the rational it is meant to denote;
    - a string is its UTF-8 byte sequence, on which the byte-wise order is
      the code-point order Python compares strings with. *)

From Stdlib Require Import List String Ascii ZArith QArith Qround Bool Lia.
From Stdlib Require Import Permutation Sorted.
Import ListNotations.
Open Scope Z_scope.
Open Scope string_scope.
Open Scope list_scope.

Set Implicit Arguments.

(** ** Strings *)

Module Str.

(** [s.endswith(suffix)] *)
Fixpoint endswith (s suffix : string) : bool :=
  if String.eqb s suffix then true
  else match s with
       | EmptyString => false
       | String _ s' => endswith s' suffix
       end.

(** [s.startswith(p)] *)
Definition startswith (s p : string) : bool := String.prefix p s.

(** [needle in hay] *)
Fixpoint contains (needle hay : string) : bool :=
  if String.prefix needle hay then true
  else match hay with
       | EmptyString => false
       | String _ hay' => contains needle hay'
       end.

(** [s.replace(old, new)] for a non-empty [old]: the occurrences of [old]
    are replaced from left to right, without overlap.  [skip] counts the
    characters of an occurrence still to be dropped. *)
Fixpoint replace_from (skip : nat) (old new s : string) : string :=
  match s with
  | EmptyString => EmptyString
  | String c s' =>
      match skip with
      | S k => replace_from k old new s'
      | O =>
          if String.prefix old s
          then new ++ replace_from (String.length old - 1) old new s'
          else String c (replace_from O old new s')
      end
  end.

Definition replace (s old new : string) : string := replace_from O old new s.

Definition nonempty (s : string) : bool :=
  match s with EmptyString => false | _ => true end.

(** The decimal digit of [z mod 10]. *)
Definition digit (z : Z) : ascii := ascii_of_nat (48 + Z.to_nat (z mod 10)).

(** [z] printed on exactly [w] decimal digits, zero-padded: the C format
    [%0wd] for [0 <= z < 10^w]. *)
Fixpoint pad (w : nat) (z : Z) : string :=
  match w with
  | O => EmptyString
  | S w' => pad w' (z / 10) ++ String (digit z) EmptyString
  end.

End Str.

(** ** JSON values and Python dictionaries *)

#[warnings="-register-all"]
Inductive json : Type :=
| JNull
| JBool (b : bool)
| JInt (n : Z)
| JFloat (q : Q)
| JStr (s : string)
| JList (l : list json)
| JDict (d : list (string * json)).

Definition dict := list (string * json).

Module Dict.
Section Alist.
Variable V : Type.

(** [d.get(k)] / [k in d] *)
Fixpoint get (k : string) (d : list (string * V)) : option V :=
  match d with
  | [] => None
  | (k', v) :: d' => if String.eqb k k' then Some v else get k d'
  end.

(** [d[k] = v]: an existing key keeps its position, a new one goes last. *)
Fixpoint set (k : string) (v : V) (d : list (string * V)) : list (string * V) :=
  match d with
  | [] => [(k, v)]
  | (k', v') :: d' =>
      if String.eqb k k' then (k, v) :: d' else (k', v') :: set k v d'
  end.

(** [d.update(other)] *)
Definition update (d other : list (string * V)) : list (string * V) :=
  fold_left (fun acc kv => set (fst kv) (snd kv) acc) other d.

Definition mem (k : string) (d : list (string * V)) : bool :=
  match get k d with Some _ => true | None => false end.

Definition keys (d : list (string * V)) : list string := map fst d.
End Alist.
End Dict.

(** Truth value of a Python object ([if x:]). *)
Definition truthy (j : json) : bool :=
  match j with
  | JNull => false
  | JBool b => b
  | JInt n => negb (n =? 0)%Z
  | JFloat q => negb (Qeq_bool q 0)
  | JStr s => Str.nonempty s
  | JList l => match l with [] => false | _ => true end
  | JDict d => match d with [] => false | _ => true end
  end.

(** Truth value of an optional dictionary argument ([dict = None]). *)
Definition truthy_dict (o : option dict) : bool :=
  match o with
  | None => false
  | Some d => truthy (JDict d)
  end.

(** ** Dates *)

Record datetime : Type := mk_datetime {
  year : Z; month : Z; day : Z;
  hour : Z; minute : Z; second : Z; microsecond : Z
}.

(** The ranges [datetime] enforces on its fields. *)
Definition valid_datetime (t : datetime) : Prop :=
  1 <= year t <= 9999 /\ 1 <= month t <= 12 /\ 1 <= day t <= 31 /\
  0 <= hour t <= 23 /\ 0 <= minute t <= 59 /\ 0 <= second t <= 59 /\
  0 <= microsecond t <= 999999.

(** [t.strftime("%Y%m%d%H%M%S")] *)
Definition strftime_id (t : datetime) : string :=
  Str.pad 4 (year t) ++ Str.pad 2 (month t) ++ Str.pad 2 (day t) ++
  Str.pad 2 (hour t) ++ Str.pad 2 (minute t) ++ Str.pad 2 (second t).

(** [t.isoformat()]: the fraction is printed only when it is not zero. *)
Definition isoformat (t : datetime) : string :=
  Str.pad 4 (year t) ++ "-" ++ Str.pad 2 (month t) ++ "-" ++ Str.pad 2 (day t) ++
  "T" ++ Str.pad 2 (hour t) ++ ":" ++ Str.pad 2 (minute t) ++ ":" ++
  Str.pad 2 (second t) ++
  (if (microsecond t =? 0)%Z then "" else "." ++ Str.pad 6 (microsecond t)).

(** Chronological order: lexicographic on the fields. *)
Definition datetime_key (t : datetime) : list Z :=
  [year t; month t; day t; hour t; minute t; second t; microsecond t].

Fixpoint lex_compare (a b : list Z) : comparison :=
  match a, b with
  | [], [] => Eq
  | [], _ :: _ => Lt
  | _ :: _, [] => Gt
  | x :: a', y :: b' =>
      match (x ?= y)%Z with
      | Eq => lex_compare a' b'
      | c => c
      end
  end.

Definition datetime_compare (a b : datetime) : comparison :=
  lex_compare (datetime_key a) (datetime_key b).

(** [a < b] on [datetime] objects. *)
Definition datetime_lt (a b : datetime) : bool :=
  match datetime_compare a b with Lt => true | _ => false end.

Definition sample_time : datetime := mk_datetime 2024 3 9 14 5 7 120034.

(** ** Python comparison of JSON values *)

(** The number a [bool], [int] or [float] denotes. *)
Definition num_of (j : json) : option Q :=
  match j with
  | JBool b => Some (if b then 1%Q else 0%Q)
  | JInt n => Some (inject_Z n)
  | JFloat q => Some q
  | _ => None
  end.

(** [a == b] *)
Fixpoint py_eq (a b : json) {struct a} : bool :=
  match a, b with
  | JNull, JNull => true
  | JStr s, JStr t => String.eqb s t
  | JList la, JList lb =>
      (fix go (la lb : list json) {struct la} : bool :=
         match la, lb with
         | [], [] => true
         | x :: la', y :: lb' => py_eq x y && go la' lb'
         | _, _ => false
         end) la lb
  | JDict da, JDict db =>
      Nat.eqb (List.length da) (List.length db) &&
      (fix go (da : list (string * json)) {struct da} : bool :=
         match da with
         | [] => true
         | (k, v) :: da' =>
             match Dict.get k db with
             | Some v' => py_eq v v'
             | None => false
             end && go da'
         end) da
  | (JBool _ | JInt _ | JFloat _), (JBool _ | JInt _ | JFloat _) =>
      match num_of a, num_of b with
      | Some x, Some y => Qeq_bool x y
      | _, _ => false
      end
  | _, _ => false
  end.

(** [a < b]; [None] when Python raises [TypeError]. *)
Fixpoint py_lt (a b : json) {struct a} : option bool :=
  match a, b with
  | JStr s, JStr t => Some (String.ltb s t)
  | JList la, JList lb =>
      (fix go (la lb : list json) {struct la} : option bool :=
         match la, lb with
         | [], [] => Some false
         | [], _ :: _ => Some true
         | _ :: _, [] => Some false
         | x :: la', y :: lb' => if py_eq x y then go la' lb' else py_lt x y
         end) la lb
  | (JBool _ | JInt _ | JFloat _), (JBool _ | JInt _ | JFloat _) =>
      match num_of a, num_of b with
      | Some x, Some y => Some (negb (Qle_bool y x))
      | _, _ => None
      end
  | _, _ => None
  end.

(** ** Exceptions and the state-and-exception monad *)

Inductive exn_class : Type :=
| FileNotFoundError | IsADirectoryError
| JSONDecodeError | UnicodeDecodeError
| TypeError | AttributeError | IndexError | KeyError
| NVMLError_NotSupported | NVMLError_Uninitialized | NVMLError_Unknown
| ResponseError | ConnectionError | RuntimeError.

(** An exception object: its class and [str(e)].  Every class above
    derives from [Exception]. *)
Record exn : Type := mk_exn { exn_cls : exn_class; exn_str : string }.

(** [isinstance(e, pynvml.NVMLError)] *)
Definition is_NVMLError (e : exn) : bool :=
  match exn_cls e with
  | NVMLError_NotSupported | NVMLError_Uninitialized | NVMLError_Unknown => true
  | _ => false
  end.

Definition is_class (c : exn_class) (e : exn) : bool :=
  match c, exn_cls e with
  | FileNotFoundError, FileNotFoundError | IsADirectoryError, IsADirectoryError
  | JSONDecodeError, JSONDecodeError | TypeError, TypeError
  | UnicodeDecodeError, UnicodeDecodeError
  | AttributeError, AttributeError | IndexError, IndexError | KeyError, KeyError
  | NVMLError_NotSupported, NVMLError_NotSupported
  | NVMLError_Uninitialized, NVMLError_Uninitialized
  | NVMLError_Unknown, NVMLError_Unknown
  | ResponseError, ResponseError | ConnectionError, ConnectionError
  | RuntimeError, RuntimeError => true
  | _, _ => false
  end.

Inductive outcome (S A : Type) : Type :=
| Ret (a : A) (s : S)
| Raise (e : exn) (s : S).

Arguments Ret {S A} a s.
Arguments Raise {S A} e s.

Definition M (S A : Type) : Type := S -> outcome S A.

Definition ret {S A : Type} (a : A) : M S A := fun s => Ret a s.

Definition bind {S A B : Type} (m : M S A) (f : A -> M S B) : M S B :=
  fun s => match m s with
           | Ret a s' => f a s'
           | Raise e s' => Raise e s'
           end.

Definition raise {S A : Type} (e : exn) : M S A := fun s => Raise e s.

(** [try: body except Exception as e: handler e] *)
Definition try_except {S A : Type} (body : M S A) (handler : exn -> M S A) : M S A :=
  fun s => match body s with
           | Ret a s' => Ret a s'
           | Raise e s' => handler e s'
           end.

(** [try: body finally: cleanup] *)
Definition try_finally {S A : Type} (body : M S A) (cleanup : M S unit) : M S A :=
  fun s => match body s with
           | Ret a s' => match cleanup s' with
                         | Ret _ s'' => Ret a s''
                         | Raise e s'' => Raise e s''
                         end
           | Raise e s' => match cleanup s' with
                           | Ret _ s'' => Raise e s''
                           | Raise e' s'' => Raise e' s''
                           end
           end.

Definition get_state {S : Type} : M S S := fun s => Ret s s.
Definition modify {S : Type} (f : S -> S) : M S unit := fun s => Ret tt (f s).

(** The result of an external call, as the environment decides it. *)
Definition lift {S A : Type} (r : exn + A) : M S A :=
  match r with
  | inr a => ret a
  | inl e => raise e
  end.

Declare Scope monad_scope.
Delimit Scope monad_scope with monad.
Notation "x <- m ;; k" := (bind m (fun x => k))
  (at level 100, m at next level, right associativity) : monad_scope.
Notation "m ;; k" := (bind m (fun _ => k))
  (at level 100, right associativity) : monad_scope.
Open Scope monad_scope.

Definition returns {S A : Type} (o : outcome S A) : Prop :=
  match o with Ret _ _ => True | Raise _ _ => False end.

(** ** The store on disk *)

(** The content of a regular file, as [json.load] sees it: the text of a
    JSON value, or content on which [json.load] raises.  The exception
    belongs to the content: a [JSONDecodeError] with the parser's message
    for text that is not JSON, a [UnicodeDecodeError] for bytes that are
    not UTF-8. *)
Inductive text : Type :=
| Json (j : json)
| Garbage (e : exn).

(** A directory entry: a regular file, or an entry that exists and that
    [open] refuses with [IsADirectoryError]. *)
Inductive node : Type :=
| File (t : text)
| Dir.

(** The metrics log: absent, a file of newline-terminated lines, or an
    entry that cannot be opened for appending. *)
Inductive log_node : Type :=
| NoLog
| LogLines (lines : list text)
| LogDir.

Record world : Type := mk_world {
  rec_dir : list (string * node);  (* recommendations_dir, by file name *)
  log_file : log_node;             (* logs/system_metrics.jsonl *)
  clock : nat -> datetime;         (* successive readings of datetime.now() *)
  tick : nat;                      (* readings taken so far *)
  out : list string                (* lines printed *)
}.

Definition with_rec_dir (d : list (string * node)) (w : world) : world :=
  mk_world d (log_file w) (clock w) (tick w) (out w).
Definition with_log_file (l : log_node) (w : world) : world :=
  mk_world (rec_dir w) l (clock w) (tick w) (out w).
Definition with_tick (n : nat) (w : world) : world :=
  mk_world (rec_dir w) (log_file w) (clock w) n (out w).
Definition with_out (o : list string) (w : world) : world :=
  mk_world (rec_dir w) (log_file w) (clock w) (tick w) o.

(** [os.path.join(a, b)] on POSIX *)
Definition path_join (a b : string) : string :=
  if Str.startswith b "/" then b
  else if negb (Str.nonempty a) || Str.endswith a "/" then a ++ b
  else a ++ "/" ++ b.

(** [datetime.now()] *)
Definition now : M world datetime :=
  fun w => Ret (clock w (tick w)) (with_tick (S (tick w)) w).

(** [print(s)] *)
Definition print (s : string) : M world unit :=
  modify (fun w => with_out (out w ++ [s]) w).

(** [os.path.exists(path)] for [path] the entry [name] of the directory. *)
Definition path_exists (name : string) : M world bool :=
  fun w => Ret (Dict.mem name (rec_dir w)) w.

(** [os.listdir(recommendations_dir)] *)
Definition listdir : M world (list string) :=
  fun w => Ret (Dict.keys (rec_dir w)) w.

Definition errno_2 (path : string) : exn :=
  mk_exn FileNotFoundError ("[Errno 2] No such file or directory: '" ++ path ++ "'").
Definition errno_21 (path : string) : exn :=
  mk_exn IsADirectoryError ("[Errno 21] Is a directory: '" ++ path ++ "'").

(** [with open(path, 'r') as f: json.load(f)] (and the reading half of
    mode ['r+']) *)
Definition open_load (path name : string) : M world json :=
  fun w => match Dict.get name (rec_dir w) with
           | None => Raise (errno_2 path) w
           | Some Dir => Raise (errno_21 path) w
           | Some (File (Garbage e)) => Raise e w
           | Some (File (Json j)) => Ret j w
           end.

(** [with open(path, 'w') as f: json.dump(j, f, indent=4)]: the file is
    created or replaced.  Also the writing half of mode ['r+']:
    [f.seek(0); json.dump(j, f, indent=4); f.truncate()]. *)
Definition open_dump (path name : string) (j : json) : M world unit :=
  fun w => match Dict.get name (rec_dir w) with
           | Some Dir => Raise (errno_21 path) w
           | _ => Ret tt (with_rec_dir (Dict.set name (File (Json j)) (rec_dir w)) w)
           end.

(** [with open(log_file, 'a') as f: f.write(json.dumps(j) + '\n')]: one
    write of one complete line. *)
Definition open_append_line (path : string) (j : json) : M world unit :=
  fun w => match log_file w with
           | NoLog => Ret tt (with_log_file (LogLines [Json j]) w)
           | LogLines ls => Ret tt (with_log_file (LogLines (ls ++ [Json j])) w)
           | LogDir => Raise (errno_21 path) w
           end.

(** [data[k] = v] *)
Definition setitem (data : json) (k : string) (v : json) : M world json :=
  let no_item (ty : string) : M world json :=
    raise (mk_exn TypeError ("'" ++ ty ++ "' object does not support item assignment")) in
  match data with
  | JDict d => ret (JDict (Dict.set k v d))
  | JList _ => raise (mk_exn TypeError "list indices must be integers or slices, not str")
  | JNull => no_item "NoneType"
  | JBool _ => no_item "bool"
  | JInt _ => no_item "int"
  | JFloat _ => no_item "float"
  | JStr _ => no_item "str"
  end.

(** ** [DataManager] *)

Record DataManager : Type := mk_DataManager {
  base_data_dir : string;
  log_dir : string;
  recommendations_dir : string;
  knowledge_base_dir : string;
  log_path : string
}.

(** [DataManager.__init__]: the paths it derives. *)
Definition DataManager_init (base : string) : DataManager :=
  let logs := path_join base "logs" in
  mk_DataManager base logs (path_join base "recommendations")
    (path_join base "knowledge_base") (path_join logs "system_metrics.jsonl").

Definition rec_file_name (rec_id : string) : string :=
  "recommendation_" ++ rec_id ++ ".json".

Definition rec_file_path (self : DataManager) (rec_id : string) : string :=
  path_join (recommendations_dir self) (rec_file_name rec_id).

(** The entry [log_metrics] builds for a reading [ts] of the clock. *)
Definition log_entry (ts : datetime) (metrics : json) (context : option dict) : dict :=
  let entry := [("timestamp", JStr (isoformat ts)); ("metrics", metrics)] in
  if truthy_dict context
  then match context with
       | Some c => Dict.update entry c
       | None => entry
       end
  else entry.

Definition log_metrics (self : DataManager) (metrics : json) (context : option dict)
  : M world unit :=
  ts <- now ;;
  let entry := log_entry ts metrics context in
  try_except
    (open_append_line (log_path self) (JDict entry))
    (fun e => print ("Error logging metrics: " ++ exn_str e)).

(** The document [save_recommendation] writes. *)
Definition rec_data (rec_id : string) (ts : datetime) (recommendation_text : string)
    (current_metrics : json) (user_goal algorithm : string) : dict :=
  [ ("id", JStr rec_id);
    ("timestamp", JStr (isoformat ts));
    ("user_goal", JStr user_goal);
    ("mining_algorithm", JStr algorithm);
    ("system_snapshot_at_recommendation", current_metrics);
    ("llm_recommendation_text", JStr recommendation_text);
    ("applied_status", JStr "PENDING_USER_APPLY");
    ("actual_performance_after_apply", JDict []) ].

Definition save_recommendation (self : DataManager) (recommendation_text : string)
    (current_metrics : json) (user_goal algorithm : string) : M world string :=
  t_id <- now ;;
  let rec_id := strftime_id t_id in
  let path := rec_file_path self rec_id in
  t_ts <- now ;;
  let data := rec_data rec_id t_ts recommendation_text current_metrics user_goal algorithm in
  try_except
    (open_dump path (rec_file_name rec_id) (JDict data) ;;
     print ("Recommendation saved to " ++ path) ;;
     ret rec_id)
    (fun e =>
       print ("Error saving recommendation: " ++ exn_str e) ;;
       ret "ERROR").

Definition update_recommendation_status (self : DataManager) (rec_id status : string)
    (actual_metrics : option dict) (notes : string) : M world unit :=
  let path := rec_file_path self rec_id in
  let name := rec_file_name rec_id in
  present <- path_exists name ;;
  if negb present then
    print ("Error: Recommendation ID " ++ rec_id ++ " not found at " ++ path ++ ".")
  else
    try_except
      (data <- open_load path name ;;
       data <- setitem data "applied_status" (JStr status) ;;
       data <- (if truthy_dict actual_metrics
                then match actual_metrics with
                     | Some m => setitem data "actual_performance_after_apply" (JDict m)
                     | None => ret data
                     end
                else ret data) ;;
       data <- (if Str.nonempty notes
                then setitem data "user_notes" (JStr notes)
                else ret data) ;;
       t <- now ;;
       data <- setitem data "last_updated" (JStr (isoformat t)) ;;
       open_dump path name data ;;
       print ("Recommendation " ++ rec_id ++ " status updated to " ++ status ++ "."))
      (fun e =>
         print ("Error updating recommendation " ++ rec_id ++ ": " ++ exn_str e)).

Definition load_recommendation (self : DataManager) (rec_id : string)
  : M world (option json) :=
  let path := rec_file_path self rec_id in
  let name := rec_file_name rec_id in
  present <- path_exists name ;;
  if present then
    try_except
      (j <- open_load path name ;; ret (Some j))
      (fun e =>
         if is_class JSONDecodeError e then
           print ("Error decoding JSON for recommendation " ++ rec_id ++ ": " ++ exn_str e) ;;
           ret None
         else
           print ("Error loading recommendation " ++ rec_id ++ ": " ++ exn_str e) ;;
           ret None)
  else ret None.

(** *** Listing *)

(** [list.sort] on (key, value) pairs: a stable sort that compares keys
    with [<] only.  An element goes after the sorted elements it is not
    smaller than.  [None] when a comparison raises [TypeError].  (CPython
    runs the same insertions with a binary search; the results agree
    whenever every comparison succeeds.) *)
Fixpoint insert_by_key (x : json * json) (sorted : list (json * json))
  : option (list (json * json)) :=
  match sorted with
  | [] => Some [x]
  | y :: sorted' =>
      match py_lt (fst x) (fst y) with
      | None => None
      | Some true => Some (x :: sorted)
      | Some false =>
          match insert_by_key x sorted' with
          | Some r => Some (y :: r)
          | None => None
          end
      end
  end.

Definition stable_sort (l : list (json * json)) : option (list (json * json)) :=
  fold_left (fun acc x => match acc with
                          | Some s => insert_by_key x s
                          | None => None
                          end) l (Some []).

(** [list.sort(reverse=True)]: reverse, sort, reverse again, which keeps
    elements with equal keys in their original order. *)
Definition sort_reverse (l : list (json * json)) : option (list (json * json)) :=
  match stable_sort (rev l) with
  | Some s => Some (rev s)
  | None => None
  end.

(** [x.get('timestamp', '')] *)
Definition timestamp_key (x : json) : M world json :=
  match x with
  | JDict d => ret (match Dict.get "timestamp" d with
                    | Some v => v
                    | None => JStr ""
                    end)
  | _ => raise (mk_exn AttributeError "object has no attribute 'get'")
  end.

Fixpoint with_keys (l : list json) : M world (list (json * json)) :=
  match l with
  | [] => ret []
  | x :: l' =>
      k <- timestamp_key x ;;
      r <- with_keys l' ;;
      ret ((k, x) :: r)
  end.

(** [recommendations.sort(key=lambda x: x.get('timestamp', ''), reverse=True)] *)
Definition sort_by_timestamp (recommendations : list json) : M world (list json) :=
  keyed <- with_keys recommendations ;;
  match sort_reverse keyed with
  | Some s => ret (map snd s)
  | None => raise (mk_exn TypeError "'<' not supported between instances")
  end.

(** The loop of [load_all_recommendations] over the listed names. *)
Fixpoint load_listed (self : DataManager) (names : list string)
    (recommendations : list json) : M world (list json) :=
  match names with
  | [] => ret recommendations
  | filename :: names' =>
      if Str.startswith filename "recommendation_" && Str.endswith filename ".json"
      then
        let rec_id := Str.replace (Str.replace filename "recommendation_" "") ".json" "" in
        rec <- load_recommendation self rec_id ;;
        match rec with
        | Some r => if truthy r
                    then load_listed self names' (recommendations ++ [r])
                    else load_listed self names' recommendations
        | None => load_listed self names' recommendations
        end
      else load_listed self names' recommendations
  end.

Definition load_all_recommendations (self : DataManager) : M world (list json) :=
  names <- listdir ;;
  recommendations <- load_listed self names [] ;;
  sort_by_timestamp recommendations.

(** *** A store to run the functions on *)

Definition dm : DataManager := DataManager_init "app_data".

Definition clock0 (n : nat) : datetime :=
  mk_datetime 2024 3 9 14 5 (Z.of_nat (n / 4)) (Z.of_nat (n mod 4) * 250000).

Definition w0 : world := mk_world [] NoLog clock0 0 [].

Definition run {A : Type} (m : M world A) (w : world) : option A :=
  match m w with Ret a _ => Some a | Raise _ _ => None end.

Definition after {A : Type} (m : M world A) (w : world) : world :=
  match m w with Ret _ w' => w' | Raise _ w' => w' end.

(** * [system_monitor.py] *)

Module Monitor.

(** [round(x, 2)] on the rational [x]: to the nearest hundredth, ties to
    the even one. *)
Definition round_half_even (q : Q) : Z :=
  let f := Qfloor q in
  match Qcompare (q - inject_Z f) (1 # 2) with
  | Lt => f
  | Gt => f + 1
  | Eq => if Z.even f then f else f + 1
  end.

Definition round2 (q : Q) : Q := inject_Z (round_half_even (q * 100)) / 100.

(** [psutil.virtual_memory()] *)
Record svmem : Type := mk_svmem { vm_total : Z; vm_used : Z; vm_percent : Q }.

(** [subprocess.run(...)]: the completed process. *)
Record completed : Type := mk_completed {
  returncode : Z; stdout : text; stderr : string
}.

(** The host at one capture: what each external call returns or raises
    when [get_realtime_metrics] makes it. *)
Record host : Type := mk_host {
  now_reading : datetime;
  NVIDIA_NVML_AVAILABLE : bool;
  has_NVML_TEMP_GPU : bool;
  has_NVML_TEMP_GPU_MEM : bool;
  has_NVML_CLOCK_GRAPHICS : bool;
  has_NVML_CLOCK_MEM : bool;
  nvmlInit : exn + unit;
  nvmlDeviceGetHandleByIndex : exn + unit;
  temperature_gpu : exn + Z;      (* nvmlDeviceGetTemperature(handle, NVML_TEMP_GPU) *)
  temperature_mem : exn + Z;      (* nvmlDeviceGetTemperature(handle, NVML_TEMP_GPU_MEM) *)
  power_usage : exn + Z;          (* nvmlDeviceGetPowerUsage, milliwatts *)
  clock_graphics : exn + Z;       (* nvmlDeviceGetClockInfo(handle, NVML_CLOCK_GRAPHICS) *)
  clock_mem : exn + Z;            (* nvmlDeviceGetClockInfo(handle, NVML_CLOCK_MEM) *)
  fan_speed : exn + Z;            (* nvmlDeviceGetFanSpeed *)
  memory_info_used : exn + Z;     (* nvmlDeviceGetMemoryInfo(handle).used, bytes *)
  nvmlShutdown : exn + unit;
  amdgpu_top : exn + completed;   (* subprocess.run(['amdgpu_top', '--json'], ...) *)
  virtual_memory_1 : exn + svmem; (* the three calls of psutil.virtual_memory() *)
  virtual_memory_2 : exn + svmem;
  virtual_memory_3 : exn + svmem;
  cpu_percent : exn + Q;
  has_sensors_temperatures : bool;
  sensors_temperatures : exn + list (string * list Q)  (* the [current] of each entry *)
}.

Record SystemMonitor : Type := mk_SystemMonitor { gpu_brand : string; os : string }.

(** The state of a capture: the [metrics] dictionary under construction
    and the lines printed. *)
Record capture : Type := mk_capture { metrics : dict; printed : list string }.

Definition print (s : string) : M capture unit :=
  modify (fun c => mk_capture (metrics c) (printed c ++ [s])).

(** [metrics[section][key] = v] *)
Definition set_field (section key : string) (v : json) : M capture unit :=
  modify (fun c =>
    match Dict.get section (metrics c) with
    | Some (JDict fields) =>
        mk_capture (Dict.set section (JDict (Dict.set key v fields)) (metrics c)) (printed c)
    | _ => c
    end).

Definition NA : json := JStr "N/A".

(** The dictionary literal [get_realtime_metrics] starts from. *)
Definition initial_metrics (ts : datetime) (m1 m2 m3 : svmem) : dict :=
  [ ("timestamp", JStr (isoformat ts));
    ("gpu", JDict [ ("temp_celsius", NA);
                    ("hotspot_temp_celsius", NA);
                    ("power_draw_watts", NA);
                    ("core_clock_mhz", NA);
                    ("memory_clock_mhz", NA);
                    ("fan_speed_percent", NA);
                    ("vram_used_mb", NA);
                    ("hash_rate_mhps", NA);
                    ("efficiency_jpmh", NA) ]);
    ("cpu", JDict [ ("temperature_celsius", NA);
                    ("usage_percent", NA) ]);
    ("ram", JDict [ ("total_gb", JFloat (round2 (inject_Z (vm_total m1) / inject_Z (1024 ^ 3))));
                    ("used_gb", JFloat (round2 (inject_Z (vm_used m2) / inject_Z (1024 ^ 3))));
                    ("usage_percent", JFloat (vm_percent m3)) ]) ].

(** [except pynvml.NVMLError_NotSupported: handler]; anything else goes on. *)
Definition except_NotSupported {A : Type} (body handler : M capture A) : M capture A :=
  try_except body
    (fun e => if is_class NVMLError_NotSupported e then handler else raise e).

Definition not_supported : json := JStr "N/A (Not Supported)".

(** The NVIDIA branch: the readings between [nvmlInit] and [nvmlShutdown]. *)
Definition nvidia_readings (h : host) : M capture unit :=
  lift (nvmlInit h) ;;
  lift (nvmlDeviceGetHandleByIndex h) ;;
  (if has_NVML_TEMP_GPU h
   then t <- lift (temperature_gpu h) ;; set_field "gpu" "temp_celsius" (JInt t)
   else set_field "gpu" "temp_celsius" (JStr "N/A (NVML_TEMP_GPU not found)")) ;;
  (if has_NVML_TEMP_GPU_MEM h
   then except_NotSupported
          (t <- lift (temperature_mem h) ;; set_field "gpu" "hotspot_temp_celsius" (JInt t))
          (set_field "gpu" "hotspot_temp_celsius" not_supported)
   else set_field "gpu" "hotspot_temp_celsius" (JStr "N/A (NVML_TEMP_GPU_MEM not found)")) ;;
  p <- lift (power_usage h) ;;
  set_field "gpu" "power_draw_watts" (JFloat (inject_Z p / 1000)) ;;
  graphics_clock <-
    (if has_NVML_CLOCK_GRAPHICS h
     then except_NotSupported (c <- lift (clock_graphics h) ;; ret (JInt c)) (ret not_supported)
     else ret NA) ;;
  set_field "gpu" "core_clock_mhz" graphics_clock ;;
  memory_clock <-
    (if has_NVML_CLOCK_MEM h
     then except_NotSupported (c <- lift (clock_mem h) ;; ret (JInt c)) (ret not_supported)
     else ret NA) ;;
  set_field "gpu" "memory_clock_mhz" memory_clock ;;
  except_NotSupported
    (f <- lift (fan_speed h) ;; set_field "gpu" "fan_speed_percent" (JInt f))
    (set_field "gpu" "fan_speed_percent" not_supported) ;;
  used <- lift (memory_info_used h) ;;
  set_field "gpu" "vram_used_mb" (JInt (used / (1024 * 1024))).

Definition nvidia_block (h : host) : M capture unit :=
  try_finally
    (try_except (nvidia_readings h)
       (fun e =>
          if is_NVMLError e
          then print ("NVIDIA NVML Runtime Error: " ++ exn_str e
                      ++ ". Check if NVIDIA driver is loaded.")
          else print ("Unexpected error getting NVIDIA real-time metrics: " ++ exn_str e)))
    (try_except (lift (nvmlShutdown h))
       (fun e => if is_class NVMLError_Uninitialized e then ret tt else raise e)).

(** *** Python operations on the parsed output of [amdgpu_top] *)

Definition type_error {A : Type} (msg : string) : M capture A :=
  raise (mk_exn TypeError msg).

(** [key in data] for the string [key] *)
Definition py_in (key : string) (data : json) : M capture bool :=
  match data with
  | JDict d => ret (Dict.mem key d)
  | JList l => ret (existsb (py_eq (JStr key)) l)
  | JStr s => ret (Str.contains key s)
  | _ => type_error "argument is not iterable"
  end.

(** [data[key]] for the string [key] *)
Definition py_getitem (data : json) (key : string) : M capture json :=
  match data with
  | JDict d => match Dict.get key d with
               | Some v => ret v
               | None => raise (mk_exn KeyError ("'" ++ key ++ "'"))
               end
  | JList _ => type_error "list indices must be integers or slices, not str"
  | JStr _ => type_error "string indices must be integers, not 'str'"
  | _ => type_error "object is not subscriptable"
  end.

(** [len(v)] *)
Definition py_len (v : json) : M capture Z :=
  match v with
  | JList l => ret (Z.of_nat (List.length l))
  | JDict d => ret (Z.of_nat (List.length d))
  | JStr s => ret (Z.of_nat (String.length s))
  | _ => type_error "object has no len()"
  end.

(** [v[0]]; of a string, its first character (here: its first byte, a
    string on which every later step raises alike). *)
Definition py_first (v : json) : M capture json :=
  match v with
  | JList (x :: _) => ret x
  | JList [] => raise (mk_exn IndexError "list index out of range")
  | JStr (String c _) => ret (JStr (String c EmptyString))
  | JStr EmptyString => raise (mk_exn IndexError "string index out of range")
  | JDict _ => raise (mk_exn KeyError "0")
  | _ => type_error "object is not subscriptable"
  end.

(** [obj.get(key, default)] *)
Definition py_get (obj : json) (key : string) (default : json) : M capture json :=
  match obj with
  | JDict d => ret (match Dict.get key d with Some v => v | None => default end)
  | _ => raise (mk_exn AttributeError "object has no attribute 'get'")
  end.

(** [card.get(key, "N/A") / divisor if isinstance(card.get(key), (int, float)) else "N/A"] *)
Definition scaled (card : json) (key : string) (divisor : Q) : M capture json :=
  v <- py_get card key JNull ;;
  match num_of v with
  | Some q => ret (JFloat (q / divisor))
  | None => ret NA
  end.

Definition amd_readings (h : host) : M capture unit :=
  result <- lift (amdgpu_top h) ;;
  if (returncode result =? 0)%Z then
    data <- (match stdout result with
             | Json j => ret j
             | Garbage e => raise e
             end) ;;
    has_cards <- (if truthy data
                  then present <- py_in "cards" data ;;
                       if present
                       then cards <- py_getitem data "cards" ;;
                            n <- py_len cards ;;
                            ret (0 <? n)%Z
                       else ret false
                  else ret false) ;;
    if has_cards then
      cards <- py_getitem data "cards" ;;
      card <- py_first cards ;;
      temp <- py_get card "temp" (JDict []) ;;
      edge <- py_get temp "edge" NA ;;
      set_field "gpu" "temp_celsius" edge ;;
      temp <- py_get card "temp" (JDict []) ;;
      junction <- py_get temp "junction" NA ;;
      set_field "gpu" "hotspot_temp_celsius" junction ;;
      power <- scaled card "power_average" 1000 ;;
      set_field "gpu" "power_draw_watts" power ;;
      core <- scaled card "gfx_clk_freq" 1000000 ;;
      set_field "gpu" "core_clock_mhz" core ;;
      mem <- scaled card "mem_clk_freq" 1000000 ;;
      set_field "gpu" "memory_clock_mhz" mem ;;
      fan <- py_get card "fan_speed_percent" NA ;;
      set_field "gpu" "fan_speed_percent" fan ;;
      vram <- py_get card "vram_used" NA ;;
      set_field "gpu" "vram_used_mb" vram
    else ret tt
  else print ("amdgpu_top error (realtime info): " ++ stderr result).

Definition amd_block (h : host) : M capture unit :=
  try_except (amd_readings h)
    (fun e =>
       if is_class FileNotFoundError e
       then print "amdgpu_top not found. Install it for better AMD GPU monitoring on Linux."
       else if is_class JSONDecodeError e
       then print "Could not parse amdgpu_top JSON output for real-time info."
       else print ("Error getting AMD GPU real-time metrics: " ++ exn_str e)).

(** [temps[name][0].current] *)
Definition first_current (entries : list Q) : M capture json :=
  match entries with
  | q :: _ => ret (JFloat q)
  | [] => raise (mk_exn IndexError "list index out of range")
  end.

Definition cpu_block (h : host) : M capture unit :=
  usage <- lift (cpu_percent h) ;;
  set_field "cpu" "usage_percent" (JFloat usage) ;;
  if has_sensors_temperatures h then
    temps <- lift (sensors_temperatures h) ;;
    match Dict.get "coretemp" temps with
    | Some entries =>
        t <- first_current entries ;; set_field "cpu" "temperature_celsius" t
    | None =>
        match Dict.get "k10temp" temps with
        | Some entries =>
            t <- first_current entries ;; set_field "cpu" "temperature_celsius" t
        | None =>
            match Dict.get "cpu_thermal" temps with
            | Some entries =>
                t <- first_current entries ;; set_field "cpu" "temperature_celsius" t
            | None => ret tt
            end
        end
    end
  else ret tt.

Definition get_realtime_metrics (self : SystemMonitor) (h : host) : M capture dict :=
  m1 <- lift (virtual_memory_1 h) ;;
  m2 <- lift (virtual_memory_2 h) ;;
  m3 <- lift (virtual_memory_3 h) ;;
  modify (fun c => mk_capture (initial_metrics (now_reading h) m1 m2 m3) (printed c)) ;;
  (if String.eqb (gpu_brand self) "NVIDIA" && NVIDIA_NVML_AVAILABLE h
   then nvidia_block h
   else if String.eqb (gpu_brand self) "AMD" && String.eqb (os self) "Linux"
   then amd_block h
   else ret tt) ;;
  cpu_block h ;;
  c <- get_state ;;
  ret (metrics c).

(** The capture starts with nothing built and nothing printed. *)
Definition start : capture := mk_capture [] [].

(** [metrics[section][key]] of a snapshot. *)
Definition field (section key : string) (m : dict) : option json :=
  match Dict.get section m with
  | Some (JDict fields) => Dict.get key fields
  | _ => None
  end.

(** A desktop with an NVIDIA card on which every reading succeeds. *)
Definition healthy : host :=
  mk_host sample_time true true true true true
    (inr tt) (inr tt) (inr 65) (inr 75) (inr 200000) (inr 1800) (inr 7000) (inr 60)
    (inr 8178892800) (inr tt)
    (inl (mk_exn FileNotFoundError "[Errno 2] No such file or directory: 'amdgpu_top'"))
    (inr (mk_svmem 17179869184 8589934592 50)) (inr (mk_svmem 17179869184 8589934592 50))
    (inr (mk_svmem 17179869184 8589934592 50))
    (inr (31 # 2)) true (inr [("coretemp", [45%Q; 46%Q])]).

(** The same desktop with a card that does not report its power draw. *)
Definition no_power_reading : host :=
  mk_host sample_time true true true true true
    (inr tt) (inr tt) (inr 65) (inr 75)
    (inl (mk_exn NVMLError_NotSupported "Not Supported"))
    (inr 1800) (inr 7000) (inr 60)
    (inr 8178892800) (inr tt)
    (inl (mk_exn FileNotFoundError "[Errno 2] No such file or directory: 'amdgpu_top'"))
    (inr (mk_svmem 17179869184 8589934592 50)) (inr (mk_svmem 17179869184 8589934592 50))
    (inr (mk_svmem 17179869184 8589934592 50))
    (inr (31 # 2)) true (inr [("coretemp", [45%Q; 46%Q])]).

(** The same desktop when [psutil.cpu_percent] fails. *)
Definition no_cpu_reading : host :=
  mk_host sample_time true true true true true
    (inr tt) (inr tt) (inr 65) (inr 75) (inr 200000) (inr 1800) (inr 7000) (inr 60)
    (inr 8178892800) (inr tt)
    (inl (mk_exn FileNotFoundError "[Errno 2] No such file or directory: 'amdgpu_top'"))
    (inr (mk_svmem 17179869184 8589934592 50)) (inr (mk_svmem 17179869184 8589934592 50))
    (inr (mk_svmem 17179869184 8589934592 50))
    (inl (mk_exn RuntimeError "cpu times unavailable")) true (inr [("coretemp", [45%Q; 46%Q])]).

Definition nvidia : SystemMonitor := mk_SystemMonitor "NVIDIA" "Linux".

(** *** The GPU readings and what a snapshot must hold *)

(** The readings of the NVIDIA branch, one per field. *)
Inductive reading : Type :=
| Temp | Hotspot | Power | CoreClock | MemClock | Fan | Vram.

Definition key_of (r : reading) : string :=
  match r with
  | Temp => "temp_celsius"
  | Hotspot => "hotspot_temp_celsius"
  | Power => "power_draw_watts"
  | CoreClock => "core_clock_mhz"
  | MemClock => "memory_clock_mhz"
  | Fan => "fan_speed_percent"
  | Vram => "vram_used_mb"
  end.

Definition on_success {A B : Type} (f : A -> B) (r : exn + A) : exn + B :=
  match r with
  | inr a => inr (f a)
  | inl e => inl e
  end.

(** What the source of a reading yields: the value its field is given,
    or the exception. *)
Definition source (h : host) (r : reading) : exn + json :=
  match r with
  | Temp => on_success JInt (temperature_gpu h)
  | Hotspot => on_success JInt (temperature_mem h)
  | Power => on_success (fun p => JFloat (inject_Z p / 1000)) (power_usage h)
  | CoreClock => on_success JInt (clock_graphics h)
  | MemClock => on_success JInt (clock_mem h)
  | Fan => on_success JInt (fan_speed h)
  | Vram => on_success (fun used => JInt (used / (1024 * 1024))) (memory_info_used h)
  end.

(** The readings wrapped in their own [except NVMLError_NotSupported]. *)
Definition guarded (r : reading) : bool :=
  match r with
  | Hotspot | CoreClock | MemClock | Fan => true
  | Temp | Power | Vram => false
  end.

Definition succeeded {A : Type} (r : exn + A) : bool :=
  match r with inr _ => true | inl _ => false end.

(** The unavailable marker: ["N/A"], alone or followed by a reason. *)
Definition is_unavailable (v : json) : bool :=
  match v with
  | JStr s => Str.startswith s "N/A"
  | _ => false
  end.

(** [metrics[section][key] = v] on the dictionary. *)
Definition set_in (section key : string) (v : json) (m : dict) : dict :=
  match Dict.get section m with
  | Some (JDict fields) => Dict.set section (JDict (Dict.set key v fields)) m
  | _ => m
  end.

Definition present (section key : string) (m : dict) : bool :=
  match field section key m with Some _ => true | None => false end.

(** The fields of a snapshot. *)
Definition schema : list (string * string) :=
  [ ("gpu", "temp_celsius"); ("gpu", "hotspot_temp_celsius"); ("gpu", "power_draw_watts");
    ("gpu", "core_clock_mhz"); ("gpu", "memory_clock_mhz"); ("gpu", "fan_speed_percent");
    ("gpu", "vram_used_mb"); ("gpu", "hash_rate_mhps"); ("gpu", "efficiency_jpmh");
    ("cpu", "temperature_celsius"); ("cpu", "usage_percent");
    ("ram", "total_gb"); ("ram", "used_gb"); ("ram", "usage_percent") ].

(** A complete snapshot: the timestamp and every field are there. *)
Definition complete (m : dict) : bool :=
  Dict.mem "timestamp" m && forallb (fun sk => present (fst sk) (snd sk) m) schema.

(** [nvmlShutdown] returns, or raises the one error the code expects. *)
Definition quiet_shutdown (h : host) : bool :=
  match nvmlShutdown h with
  | inr _ => true
  | inl e => is_class NVMLError_Uninitialized e
  end.

(** The sensor entry [cpu_block] reads, when there is one. *)
Definition chosen_sensor (temps : list (string * list Q)) : option (list Q) :=
  match Dict.get "coretemp" temps with
  | Some entries => Some entries
  | None => match Dict.get "k10temp" temps with
            | Some entries => Some entries
            | None => Dict.get "cpu_thermal" temps
            end
  end.

(** The psutil calls return, and the sensor read has an entry. *)
Definition psutil_ok (h : host) : bool :=
  succeeded (virtual_memory_1 h) && succeeded (virtual_memory_2 h) &&
  succeeded (virtual_memory_3 h) && succeeded (cpu_percent h) &&
  (if has_sensors_temperatures h
   then match sensors_temperatures h with
        | inr temps => match chosen_sensor temps with
                       | Some [] => false
                       | _ => true
                       end
        | inl _ => false
        end
   else true).

(** The capture takes the NVIDIA branch. *)
Definition nvidia_path (self : SystemMonitor) (h : host) : bool :=
  String.eqb (gpu_brand self) "NVIDIA" && NVIDIA_NVML_AVAILABLE h.

(** The library has the four constants, and the device is opened. *)
Definition nvml_ready (h : host) : bool :=
  has_NVML_TEMP_GPU h && has_NVML_TEMP_GPU_MEM h &&
  has_NVML_CLOCK_GRAPHICS h && has_NVML_CLOCK_MEM h &&
  succeeded (nvmlInit h) && succeeded (nvmlDeviceGetHandleByIndex h).

(** The only readings that fail are guarded ones, with [NotSupported]. *)
Definition only_unsupported (h : host) : Prop :=
  forall r e, source h r = inl e ->
              guarded r = true /\ is_class NVMLError_NotSupported e = true.

(** What a field holds after such a capture. *)
Definition stored (h : host) (r : reading) : json :=
  match source h r with
  | inr v => v
  | inl _ => not_supported
  end.

(** Every reading that failed left the unavailable marker in its field. *)
Definition failures_marked (h : host) (m : dict) : Prop :=
  (exists fields, Dict.get "gpu" m = Some (JDict fields)) /\
  forall r, succeeded (source h r) = false ->
            exists v, field "gpu" (key_of r) m = Some v /\ is_unavailable v = true.

(** *** A program logic for captures *)

(** [m] keeps the property [I] of the metrics, whether it returns or
    raises. *)
Definition preserves {A : Type} (I : dict -> Prop) (m : M capture A) : Prop :=
  forall c, I (metrics c) ->
            match m c with
            | Ret _ c' => I (metrics c')
            | Raise _ c' => I (metrics c')
            end.

(** From [P], [m] returns a value with [Q] or raises leaving [E]. *)
Definition triple {A : Type} (P : dict -> Prop) (m : M capture A)
    (Q : A -> dict -> Prop) (E : dict -> Prop) : Prop :=
  forall c, P (metrics c) ->
            match m c with
            | Ret a c' => Q a (metrics c')
            | Raise _ c' => E (metrics c')
            end.

(** [m] never raises. *)
Definition total {A : Type} (m : M capture A) : Prop := forall c, returns (m c).

(** The single-failure contract, on the NVIDIA branch: when exactly one
    reading fails, the capture returns a complete snapshot in which that
    reading's field holds the unavailable marker and every other field
    holds what its own source yields. *)
Definition single_failure_isolated_as_stated : Prop :=
  forall (self : SystemMonitor) (h : host) (r : reading) (e : exn),
    nvidia_path self h = true -> nvml_ready h = true ->
    succeeded (nvmlShutdown h) = true -> psutil_ok h = true ->
    source h r = inl e ->
    (forall r', r' <> r -> succeeded (source h r') = true) ->
    exists m c,
      get_realtime_metrics self h start = Ret m c /\
      complete m = true /\
      (exists v, field "gpu" (key_of r) m = Some v /\ is_unavailable v = true) /\
      (forall r' v, r' <> r -> source h r' = inr v -> field "gpu" (key_of r') m = Some v).

(** The same desktop with a card whose fan speed is not supported. *)
Definition no_fan_reading : host :=
  mk_host sample_time true true true true true
    (inr tt) (inr tt) (inr 65) (inr 75) (inr 200000) (inr 1800) (inr 7000)
    (inl (mk_exn NVMLError_NotSupported "Not Supported"))
    (inr 8178892800) (inr tt)
    (inl (mk_exn FileNotFoundError "[Errno 2] No such file or directory: 'amdgpu_top'"))
    (inr (mk_svmem 17179869184 8589934592 50)) (inr (mk_svmem 17179869184 8589934592 50))
    (inr (mk_svmem 17179869184 8589934592 50))
    (inr (31 # 2)) true (inr [("coretemp", [45%Q; 46%Q])]).

End Monitor.

(** * [llm_interaction.py] *)

Module LLM.

#[local] Open Scope string_scope.

Definition dq : string := String "034"%char EmptyString.
Definition nl : string := String "010"%char EmptyString.

(** The constant parts of the prompt. *)
Definition prompt_opening : string :=
  "
You are an expert GPU overclocking and crypto mining advisor. Your goal is to provide safe, efficient, and detailed overclocking recommendations for a user's specific GPU and mining setup.

Here is the current system summary and real-time telemetry:
".

Definition prompt_goal : string :=
  "

The user's primary goal for overclocking is: '".

Definition prompt_algorithm : string :=
  "'.
The current crypto mining algorithm they are using (or plan to use) is: '".

Definition prompt_sections : string :=
  "'.

Based on this information and your extensive knowledge of GPU performance, mining algorithms, and hardware stability, provide the following sections:

1.  **Recommended Overclock Settings:**
    * **Core Clock (MHz):** Specify either a fixed clock (e.g., 1800) or an offset (e.g., +150). Prefer fixed clocks for better efficiency if possible for the GPU/algorithm.
    * **Memory Clock (MHz):** Specify an offset (e.g., +1200).
    * **Power Limit (%):** Percentage of the maximum allowed TDP (e.g., 70%).
    * **Fan Speed (% or Curve Description):** A target percentage (e.g., 70%) or a brief description of a desired fan curve (e.g., " ++ dq ++ "aggressive to maintain 60C" ++ dq ++ ").
2.  **Expected Outcomes:**
    * **Estimated Hash Rate:** (e.g., XX MH/s, YY Sol/s, ZZ H/s - provide a realistic estimate based on common benchmarks for this GPU/algorithm/settings if possible).
    * **Estimated Power Draw:** (e.g., WW watts).
    * **Estimated Efficiency:** (e.g., EE J/MH, or Watts/Sol - calculate if possible from estimated hash rate and power draw).
    * **Expected Temperature:** (e.g., TT째C for GPU core, and if applicable, junction/hotspot temp).
3.  **Reasoning:**
    * Explain *why* these specific values are chosen, referencing the system's current state, the mining algorithm, and common community best practices or scientific principles.
    * Discuss the trade-offs (e.g., hash rate vs. power efficiency vs. heat, stability).
4.  **Potential Risks & Precautions:**
    * What are the risks of applying these settings (e.g., instability, crashes, reduced hardware lifespan, invalid shares)?
    * What precautions should the user take (e.g., incremental changes, continuous monitoring, thorough testing, ensuring adequate PSU)?
5.  **Step-by-Step Instructions:**
    * Provide clear, concise instructions on how to apply these settings using common tools.
    * **For Windows users, focus on MSI Afterburner.**
    * **For Linux users (NVIDIA), focus on `nvidia-smi` commands.**
    * **For Linux users (AMD), focus on `amdgpu-clocks` or `roc_smi` (if applicable and safe) or other common Linux tools.**
    * Remind the user that direct software control might require specific tools or administrator privileges.

Format your output clearly with bold headings. Be precise with numerical recommendations. If you cannot provide a specific value, explain why. Prioritize safety and stability.
".

(** The f-string [prompt]. *)
Definition prompt (system_summary current_mining_algorithm user_goal : string) : string :=
  prompt_opening ++ system_summary ++ prompt_goal ++ user_goal ++ prompt_algorithm ++ current_mining_algorithm ++ prompt_sections.

Record LLMInterface : Type := mk_LLMInterface {
  llm_model : string;
  ollama_base_url : string
}.

(** [LLMInterface.__init__]: the two settings, with their defaults. *)
Definition LLMInterface_init (config : list (string * string)) : LLMInterface :=
  mk_LLMInterface
    (match Dict.get "llm_model_name" config with Some v => v | None => "llama3" end)
    (match Dict.get "ollama_base_url" config with
     | Some v => v
     | None => "http://localhost:11434"
     end).

(** The sampling options passed to [ollama.generate]. *)
Definition options : dict :=
  [ ("temperature", JFloat (1 # 2)); ("num_ctx", JInt 4096); ("top_k", JInt 40);
    ("top_p", JFloat (9 # 10)); ("num_gpu", JInt (-1)) ].

(** [ollama.generate(model=..., prompt=..., stream=False, options=...)]:
    the server answers with a mapping or the call raises. *)
Definition ollama := string -> string -> bool -> dict -> exn + list (string * string).

Definition print (s : string) : M (list string) unit :=
  modify (fun printed => (printed ++ [s])%list).

(** The message returned in place of a recommendation. *)
Definition error_message (self : LLMInterface) (e : exn) : string :=
  let details := "Error: Could not get recommendations from LLM. Details: "
                 ++ exn_str e ++ nl in
  if Str.contains "status code: 404" (exn_str e) && Str.contains (llm_model self) (exn_str e)
  then details ++ "Please ensure the model '" ++ llm_model self
       ++ "' is downloaded and available in your Ollama installation. Run `ollama pull "
       ++ llm_model self ++ "` in your terminal."
  else details
       ++ "Please ensure your Ollama server is running and accessible (e.g., at http://localhost:11434).".

Definition get_overclock_recommendations (self : LLMInterface) (generate : ollama)
    (system_summary current_mining_algorithm user_goal : string) : M (list string) string :=
  let prompt := prompt system_summary current_mining_algorithm user_goal in
  try_except
    (print (nl ++ "[LLM] Sending prompt to LLM for recommendations ("
            ++ llm_model self ++ ")...") ;;
     response <- lift (generate (llm_model self) prompt false options) ;;
     ret (match Dict.get "response" response with
          | Some text => text
          | None => "LLM did not return a valid response."
          end))
    (fun e =>
       let error_message := error_message self e in
       print ("[LLM ERROR] " ++ error_message) ;;
       ret error_message).

(** A server that does not know the model, one that is down, and one that
    answers. *)
Definition llama3 : LLMInterface := LLMInterface_init [].

Definition unknown_model : ollama :=
  fun model _ _ _ =>
    inl (mk_exn ResponseError ("model '" ++ model ++ "' not found (status code: 404)")).

Definition server_down : ollama :=
  fun _ _ _ _ => inl (mk_exn ConnectionError "Failed to connect to Ollama.").

Definition answering : ollama :=
  fun _ _ _ _ => inr [("model", "llama3"); ("response", "Core Clock: +100MHz")].

End LLM.

(** ** Derived notions used in the statements *)

(** The entry [name] can be written: it is not a directory. *)
Definition writable (name : string) (w : world) : Prop :=
  Dict.get name (rec_dir w) <> Some Dir.

(** The entry [name] holds the recommendation document [d]. *)
Definition holds_record (name : string) (d : dict) (w : world) : Prop :=
  Dict.get name (rec_dir w) = Some (File (Json (JDict d))).

(** The document [update_recommendation_status] writes back over [d] when
    the clock reads [t]. *)
Definition updated_record (d : dict) (status : string) (actual_metrics : option dict)
    (notes : string) (t : datetime) : dict :=
  let d1 := Dict.set "applied_status" (JStr status) d in
  let d2 := match actual_metrics with
            | Some ((_ :: _) as m) => Dict.set "actual_performance_after_apply" (JDict m) d1
            | _ => d1
            end in
  let d3 := if Str.nonempty notes then Dict.set "user_notes" (JStr notes) d2 else d2 in
  Dict.set "last_updated" (JStr (isoformat t)) d3.

(** A store with one applied record. *)
Definition applied_record : dict :=
  [ ("id", JStr "20240309140500");
    ("timestamp", JStr "2024-03-09T14:05:00.250000");
    ("applied_status", JStr "APPLIED");
    ("actual_performance_after_apply", JDict [("hash_rate_mhps", JInt 60)]) ].

Definition w_applied : world :=
  mk_world [(rec_file_name "20240309140500", File (Json (JDict applied_record)))]
    NoLog clock0 8 [].

Definition log_lines (l : log_node) : list text :=
  match l with
  | LogLines ls => ls
  | NoLog | LogDir => []
  end.

(** Successive calls of [log_metrics], as the polling loop makes them. *)
Fixpoint log_each (self : DataManager) (calls : list (json * option dict)) : M world unit :=
  match calls with
  | [] => ret tt
  | (metrics, context) :: calls' =>
      log_metrics self metrics context ;; log_each self calls'
  end.

(** The lines the calls write, the clock being read first at tick [t]. *)
Fixpoint lines_written (clk : nat -> datetime) (t : nat) (calls : list (json * option dict))
  : list text :=
  match calls with
  | [] => []
  | (metrics, context) :: calls' =>
      Json (JDict (log_entry (clk t) metrics context)) :: lines_written clk (S t) calls'
  end.

(** A line that [json.loads] parses to a metrics log entry. *)
Definition is_log_entry (line : text) : Prop :=
  exists entry, line = Json (JDict entry) /\
                Dict.mem "timestamp" entry = true /\ Dict.mem "metrics" entry = true.

(** The reading of the update contract under which a mapping that is
    given, empty or not, always replaces the stored one. *)
Definition update_then_load_as_stated : Prop :=
  forall self rec_id status (actual_metrics : option dict) notes d w,
    holds_record (rec_file_name rec_id) d w ->
    exists d' w1 w2,
      update_recommendation_status self rec_id status actual_metrics notes w = Ret tt w1 /\
      load_recommendation self rec_id w1 = Ret (Some (JDict d')) w2 /\
      Dict.get "applied_status" d' = Some (JStr status) /\
      Dict.get "actual_performance_after_apply" d'
      = match actual_metrics with
        | Some m => Some (JDict m)
        | None => Dict.get "actual_performance_after_apply" d
        end /\
      Dict.get "user_notes" d'
      = (if Str.nonempty notes then Some (JStr notes) else Dict.get "user_notes" d) /\
      Dict.get "last_updated" d' = Some (JStr (isoformat (clock w (tick w)))) /\
      (forall k, k <> "applied_status" -> k <> "actual_performance_after_apply" ->
                 k <> "user_notes" -> k <> "last_updated" ->
                 Dict.get k d' = Dict.get k d).

(** The instant [applied_record] was created at. *)
Definition applied_record_created : datetime := mk_datetime 2024 3 9 14 5 0 250000.

(** *** What a listing finds *)

(** The names [load_all_recommendations] looks at. *)
Definition listed (filename : string) : bool :=
  Str.startswith filename "recommendation_" && Str.endswith filename ".json".

(** The identifier it derives from a name. *)
Definition id_of_filename (filename : string) : string :=
  Str.replace (Str.replace filename "recommendation_" "") ".json" "".

(** The document stored under an identifier, when the file parses. *)
Definition parsed_document (entries : list (string * node)) (rec_id : string) : option json :=
  match Dict.get (rec_file_name rec_id) entries with
  | Some (File (Json j)) => Some j
  | _ => None
  end.

(** What [load_recommendation] prints for an identifier. *)
Definition load_warning (self : DataManager) (entries : list (string * node))
    (rec_id : string) : list string :=
  match Dict.get (rec_file_name rec_id) entries with
  | Some (File (Garbage e)) =>
      [if is_class JSONDecodeError e
       then ("Error decoding JSON for recommendation " ++ rec_id ++ ": " ++ exn_str e)%string
       else ("Error loading recommendation " ++ rec_id ++ ": " ++ exn_str e)%string]
  | Some Dir =>
      [("Error loading recommendation " ++ rec_id ++ ": "
          ++ exn_str (errno_21 (rec_file_path self rec_id)))%string]
  | _ => []
  end.

(** The records behind the listed names, in the order of the listing. *)
Fixpoint records_of (entries : list (string * node)) (names : list string) : list json :=
  match names with
  | [] => []
  | name :: names' =>
      if listed name
      then match parsed_document entries (id_of_filename name) with
           | Some j => if truthy j
                       then j :: records_of entries names'
                       else records_of entries names'
           | None => records_of entries names'
           end
      else records_of entries names'
  end.

Fixpoint warnings_of (self : DataManager) (entries : list (string * node))
    (names : list string) : list string :=
  match names with
  | [] => []
  | name :: names' =>
      if listed name
      then load_warning self entries (id_of_filename name) ++ warnings_of self entries names'
      else warnings_of self entries names'
  end.

(** The stored records of a world: every listed document that parses to a
    non-empty value. *)
Definition stored_records (w : world) : list json :=
  records_of (rec_dir w) (Dict.keys (rec_dir w)).

(** The creation timestamp a record is sorted by. *)
Definition timestamp_of (j : json) : string :=
  match j with
  | JDict d => match Dict.get "timestamp" d with
               | Some (JStr s) => s
               | _ => ""
               end
  | _ => ""
  end.

(** A record as the store writes it: a dictionary whose timestamp, if it
    has one, is a string. *)
Definition well_formed_record (j : json) : Prop :=
  exists d, j = JDict d /\
            (Dict.get "timestamp" d = None \/ exists s, Dict.get "timestamp" d = Some (JStr s)).

(** [a] is at least as recent as [b]. *)
Definition newer_or_same (a b : json) : Prop :=
  String.ltb (timestamp_of a) (timestamp_of b) = false.

(** What [json.load] raises on a file that holds [hello], on one that
    holds an opening brace, and on one whose first byte is 0xff. *)
Definition not_json : exn :=
  mk_exn JSONDecodeError "Expecting value: line 1 column 1 (char 0)".
Definition half_object : exn :=
  mk_exn JSONDecodeError
    "Expecting property name enclosed in double quotes: line 1 column 2 (char 1)".
Definition not_utf8 : exn :=
  mk_exn UnicodeDecodeError
    "'utf-8' codec can't decode byte 0xff in position 0: invalid start byte".

(** A directory with three records, two listed files that do not parse,
    a directory and a foreign file. *)
Definition busy_dir : list (string * node) :=
  [ ("recommendation_20240102000000.json",
     File (Json (JDict [("id", JStr "20240102000000"); ("timestamp", JStr "2024-01-02T00:00:00")])));
    ("notes.txt", File (Garbage not_json));
    ("recommendation_20240104000000.json", File (Garbage half_object));
    ("recommendation_20240106000000.json", File (Garbage not_utf8));
    ("recommendation_20240103000000.json",
     File (Json (JDict [("id", JStr "20240103000000"); ("timestamp", JStr "2024-01-03T00:00:00")])));
    ("recommendation_20240105000000.json", Dir);
    ("recommendation_20240101000000.json",
     File (Json (JDict [("id", JStr "20240101000000"); ("timestamp", JStr "2024-01-01T00:00:00")]))) ].

Definition w_busy : world := mk_world busy_dir NoLog clock0 0 [].

(** *** Sorting on string keys *)

(** Every key is a string. *)
Definition str_keyed (l : list (json * json)) : Prop :=
  Forall (fun kx => exists s, fst kx = JStr s) l.

Definition skey (kx : json * json) : string :=
  match fst kx with JStr s => s | _ => "" end.

(** [a] goes before [b] in ascending order. *)
Definition key_le (a b : json * json) : Prop := String.ltb (skey b) (skey a) = false.

(** The records paired with their sort keys. *)
Definition keyed (l : list json) : list (json * json) :=
  map (fun x => (JStr (timestamp_of x), x)) l.

(** *** Identifiers made of digits *)

Definition is_digit (c : ascii) : bool :=
  (48 <=? nat_of_ascii c)%nat && (nat_of_ascii c <=? 57)%nat.

Fixpoint all_digits (s : string) : bool :=
  match s with
  | EmptyString => true
  | String c s' => is_digit c && all_digits s'
  end.

(** A property of the metrics that writing the field of a GPU reading
    does not break. *)
Definition ignores_readings (I : dict -> Prop) : Prop :=
  forall r v m, I m -> I (Monitor.set_in "gpu" (Monitor.key_of r) v m).

(** A property of the metrics that writing a CPU field does not break. *)
Definition ignores_cpu (I : dict -> Prop) : Prop :=
  forall key v m, I m -> I (Monitor.set_in "cpu" key v m).

(** The GPU branch [get_realtime_metrics] takes. *)
Definition gpu_branch (self : Monitor.SystemMonitor) (h : Monitor.host)
  : M Monitor.capture unit :=
  if String.eqb (Monitor.gpu_brand self) "NVIDIA" && Monitor.NVIDIA_NVML_AVAILABLE h
  then Monitor.nvidia_block h
  else if String.eqb (Monitor.gpu_brand self) "AMD" && String.eqb (Monitor.os self) "Linux"
  then Monitor.amd_block h
  else ret tt.

(** The capture takes the AMD branch. *)
Definition amd_path (self : Monitor.SystemMonitor) : bool :=
  String.eqb (Monitor.gpu_brand self) "AMD" && String.eqb (Monitor.os self) "Linux".

(** The readings the NVIDIA branch makes after the power draw. *)
Definition after_power : list Monitor.reading :=
  [Monitor.CoreClock; Monitor.MemClock; Monitor.Fan; Monitor.Vram].

(** The fields named hold the bare marker ["N/A"]. *)
Definition all_NA (keys : list string) (m : dict) : Prop :=
  forall key, In key keys -> Monitor.field "gpu" key m = Some Monitor.NA.

(** The two placeholder fields of the GPU block. *)
Definition placeholders : list string := ["hash_rate_mhps"; "efficiency_jpmh"].

(** The fields of the GPU block. *)
Definition gpu_keys : list string :=
  map Monitor.key_of [Monitor.Temp; Monitor.Hotspot; Monitor.Power; Monitor.CoreClock;
                      Monitor.MemClock; Monitor.Fan; Monitor.Vram] ++ placeholders.

(** A Windows desktop with an AMD card: neither branch applies. *)
Definition amd_on_windows : Monitor.SystemMonitor := Monitor.mk_SystemMonitor "AMD" "Windows".

(** The fields of the readings [rs] hold what the capture is to store
    there. *)
Definition isolated (h : Monitor.host) (rs : list Monitor.reading) (m : dict) : Prop :=
  (exists fields, Dict.get "gpu" m = Some (JDict fields)) /\
  forall r, In r rs -> Monitor.field "gpu" (Monitor.key_of r) m = Some (Monitor.stored h r).
(** * Properties *)

(** ** Sample runs *)

Example strftime_sample : strftime_id sample_time = "20240309140507".
Proof. reflexivity. Qed.

Example isoformat_sample : isoformat sample_time = "2024-03-09T14:05:07.120034".
Proof. reflexivity. Qed.

Example replace_sample :
  Str.replace (Str.replace "recommendation_20240309140507.json" "recommendation_" "") ".json" ""
  = "20240309140507".
Proof. reflexivity. Qed.

Example save_then_load_sample :
  run (rec_id <- save_recommendation dm "Core +100MHz" (JDict [("gpu", JInt 65)]) "efficiency" "Ethash" ;;
       load_recommendation dm rec_id) w0
  = Some (Some (JDict (rec_data "20240309140500" (clock0 1) "Core +100MHz"
                         (JDict [("gpu", JInt 65)]) "efficiency" "Ethash"))).
Proof. reflexivity. Qed.

Example listing_sample :
  let w := mk_world
    [ ("recommendation_a.json", File (Json (JDict [("timestamp", JStr "2024-01-02")])));
      ("notes.txt", File (Garbage (mk_exn JSONDecodeError "Expecting value: line 1 column 1 (char 0)")));
      ("recommendation_b.json", File (Garbage (mk_exn JSONDecodeError "Expecting property name enclosed in double quotes: line 1 column 2 (char 1)")));
      ("recommendation_c.json", File (Json (JDict [("timestamp", JStr "2024-01-03")])));
      ("recommendation_d.json", Dir);
      ("recommendation_e.json", File (Json (JDict [("timestamp", JStr "2024-01-01")]))) ]
    NoLog clock0 0 [] in
  run (load_all_recommendations dm) w
  = Some [ JDict [("timestamp", JStr "2024-01-03")];
           JDict [("timestamp", JStr "2024-01-02")];
           JDict [("timestamp", JStr "2024-01-01")] ]
  /\ List.length (out (after (load_all_recommendations dm) w)) = 2%nat.
Proof. split; reflexivity. Qed.

(** ** Dictionaries *)

Section DictFacts.
Variable V : Type.
Implicit Types (d c : list (string * V)) (k : string) (v : V).

Lemma get_set_same k v d : Dict.get k (Dict.set k v d) = Some v.
Proof.
  induction d as [|[k' v'] d IH]; simpl.
  - now rewrite String.eqb_refl.
  - destruct (String.eqb k k') eqn:E; simpl.
    + now rewrite String.eqb_refl.
    + now rewrite E.
Qed.

Lemma get_set_other k k' v d :
  k <> k' -> Dict.get k' (Dict.set k v d) = Dict.get k' d.
Proof.
  intros Hne. induction d as [|[k0 v0] d IH]; simpl.
  - destruct (String.eqb_spec k' k); congruence.
  - destruct (String.eqb_spec k k0) as [->|Hk]; simpl.
    + destruct (String.eqb_spec k' k0); congruence.
    + now rewrite IH.
Qed.

Lemma mem_set k k' v d :
  Dict.mem k' d = true -> Dict.mem k' (Dict.set k v d) = true.
Proof.
  unfold Dict.mem. destruct (String.eqb_spec k k') as [->|Hne].
  - now rewrite get_set_same.
  - now rewrite get_set_other.
Qed.

Lemma mem_update k d c : Dict.mem k d = true -> Dict.mem k (Dict.update d c) = true.
Proof.
  unfold Dict.update. revert d.
  induction c as [|[k0 v0] c IH]; simpl; intros d H; auto using mem_set.
Qed.

Lemma get_update_absent k d c :
  Dict.get k c = None -> Dict.get k (Dict.update d c) = Dict.get k d.
Proof.
  unfold Dict.update. revert d.
  induction c as [|[k0 v0] c IH]; simpl; intros d H; [reflexivity|].
  destruct (String.eqb_spec k k0) as [->|Hne]; [discriminate|].
  rewrite IH by assumption. apply get_set_other. congruence.
Qed.

Lemma get_absent_not_key k c : ~ In k (Dict.keys c) -> Dict.get k c = None.
Proof.
  induction c as [|[k0 v0] c IH]; simpl; intros H; [reflexivity|].
  destruct (String.eqb_spec k k0) as [->|Hne]; [tauto|]. apply IH. tauto.
Qed.

(** [update] gives a key of [c] the value [c] binds it to. *)
Lemma get_update_present k v d c :
  NoDup (Dict.keys c) -> Dict.get k c = Some v ->
  Dict.get k (Dict.update d c) = Some v.
Proof.
  unfold Dict.update. revert d.
  induction c as [|[k0 v0] c IH]; simpl; intros d Hnd H; [discriminate|].
  inversion Hnd as [|? ? Hnotin Hnd']; subst.
  destruct (String.eqb_spec k k0) as [->|Hne].
  - injection H as ->.
    change (Dict.get k0 (Dict.update (Dict.set k0 v d) c) = Some v).
    rewrite get_update_absent by now apply get_absent_not_key.
    apply get_set_same.
  - now apply IH.
Qed.

Lemma set_present_length k v d :
  Dict.mem k d = true -> List.length (Dict.set k v d) = List.length d.
Proof.
  unfold Dict.mem. induction d as [|[k0 v0] d IH]; simpl; [discriminate|].
  destruct (String.eqb k k0); simpl; [reflexivity|].
  intros H. now rewrite IH.
Qed.
End DictFacts.

(** ** The monad *)

Lemma bind_ret_l {S A B : Type} (a : A) (f : A -> M S B) (s : S) :
  bind (ret a) f s = f a s.
Proof. reflexivity. Qed.

Lemma bind_Ret {S A B : Type} (m : M S A) (f : A -> M S B) (s s' : S) (a : A) :
  m s = Ret a s' -> bind m f s = f a s'.
Proof. unfold bind. now intros ->. Qed.

Lemma bind_Raise {S A B : Type} (m : M S A) (f : A -> M S B) (s s' : S) (e : exn) :
  m s = Raise e s' -> bind m f s = Raise e s'.
Proof. unfold bind. now intros ->. Qed.

Lemma try_except_Ret {S A : Type} (m : M S A) (h : exn -> M S A) (s s' : S) (a : A) :
  m s = Ret a s' -> try_except m h s = Ret a s'.
Proof. unfold try_except. now intros ->. Qed.

Lemma try_except_Raise {S A : Type} (m : M S A) (h : exn -> M S A) (s s' : S) (e : exn) :
  m s = Raise e s' -> try_except m h s = h e s'.
Proof. unfold try_except. now intros ->. Qed.

(** ** The store primitives *)

Lemma open_dump_writable path name j w :
  writable name w ->
  open_dump path name j w
  = Ret tt (with_rec_dir (Dict.set name (File (Json j)) (rec_dir w)) w).
Proof.
  unfold writable, open_dump. intros H.
  destruct (Dict.get name (rec_dir w)) as [[t|]|]; congruence.
Qed.

Lemma open_load_record path name d w :
  holds_record name d w -> open_load path name w = Ret (JDict d) w.
Proof. unfold holds_record, open_load. now intros ->. Qed.

Lemma load_recommendation_record self rec_id d w :
  holds_record (rec_file_name rec_id) d w ->
  load_recommendation self rec_id w = Ret (Some (JDict d)) w.
Proof.
  unfold holds_record. intros H.
  unfold load_recommendation, bind, path_exists, Dict.mem, try_except, open_load.
  rewrite H; cbv beta iota. now rewrite H.
Qed.

Lemma load_recommendation_absent self rec_id w :
  Dict.get (rec_file_name rec_id) (rec_dir w) = None ->
  load_recommendation self rec_id w = Ret None w.
Proof.
  intros H. unfold load_recommendation, bind, path_exists, Dict.mem. now rewrite H.
Qed.

(** What [save_recommendation] does when the write goes through. *)
Lemma save_recommendation_writable self text snap goal alg w :
  let rec_id := strftime_id (clock w (tick w)) in
  let data := rec_data rec_id (clock w (S (tick w))) text snap goal alg in
  writable (rec_file_name rec_id) w ->
  save_recommendation self text snap goal alg w
  = Ret rec_id
      (mk_world (Dict.set (rec_file_name rec_id) (File (Json (JDict data))) (rec_dir w))
                (log_file w) (clock w) (S (S (tick w)))
                (out w ++ [("Recommendation saved to " ++ rec_file_path self rec_id)%string])).
Proof.
  intros rec_id data H.
  unfold save_recommendation, bind, now, try_except, print, modify, ret; simpl.
  fold rec_id. fold data.
  rewrite open_dump_writable by exact H. reflexivity.
Qed.

(** [save_recommendation] never raises: a failed write is reported by the
    identifier ["ERROR"]. *)
Lemma save_recommendation_returns self text snap goal alg w :
  returns (save_recommendation self text snap goal alg w).
Proof.
  unfold save_recommendation, bind, now, try_except, print, modify, ret, open_dump; simpl.
  destruct (Dict.get _ _) as [[t|]|]; exact I.
Qed.

(** What [update_recommendation_status] does to an existing record. *)
Lemma update_existing self rec_id status actual_metrics notes d w :
  holds_record (rec_file_name rec_id) d w ->
  update_recommendation_status self rec_id status actual_metrics notes w
  = Ret tt
      (mk_world
         (Dict.set (rec_file_name rec_id)
            (File (Json (JDict (updated_record d status actual_metrics notes
                                  (clock w (tick w))))))
            (rec_dir w))
         (log_file w) (clock w) (S (tick w))
         (out w ++ [("Recommendation " ++ rec_id ++ " status updated to "
                       ++ status ++ ".")%string])).
Proof.
  unfold holds_record. intros H.
  unfold update_recommendation_status, bind, path_exists, Dict.mem.
  rewrite H. cbv beta iota delta [negb].
  unfold try_except, open_load. rewrite H. cbv beta iota.
  unfold updated_record, setitem, ret, now, open_dump, print, modify.
  destruct actual_metrics as [[|kv m]|]; destruct notes as [|c notes].
  all: cbn [truthy_dict truthy Str.nonempty with_tick rec_dir log_file clock tick
            out with_out with_rec_dir].
  all: rewrite H; reflexivity.
Qed.

(** The record is there to be read after an update. *)
Lemma holds_record_after_set name d (w : world) l clk tk o :
  holds_record name d
    (mk_world (Dict.set name (File (Json (JDict d))) (rec_dir w)) l clk tk o).
Proof. unfold holds_record; simpl. apply get_set_same. Qed.

(** ** C3: updating an identifier that is not stored *)

(** C3.  When no document is stored under [rec_id],
    [update_recommendation_status] returns normally after printing the
    not-found report, and the store is left as it was: the directory, the
    documents in it and the metrics log are the same before and after. *)
Theorem update_missing_reports_and_keeps_store self rec_id status actual_metrics notes w :
  Dict.get (rec_file_name rec_id) (rec_dir w) = None ->
  exists w',
    update_recommendation_status self rec_id status actual_metrics notes w = Ret tt w' /\
    out w' = out w ++ [("Error: Recommendation ID " ++ rec_id ++ " not found at "
                          ++ rec_file_path self rec_id ++ ".")%string] /\
    rec_dir w' = rec_dir w /\
    log_file w' = log_file w.
Proof.
  intros H. eexists. split.
  - unfold update_recommendation_status, bind, path_exists, Dict.mem.
    rewrite H. reflexivity.
  - simpl. auto.
Qed.

Lemma update_missing_reports_and_keeps_store_witness :
  Dict.get (rec_file_name "20240309140500") (rec_dir w0) = None /\
  exists w',
    update_recommendation_status dm "20240309140500" "APPLIED" None "note" w0 = Ret tt w' /\
    out w' = out w0 ++ [("Error: Recommendation ID " ++ "20240309140500" ++ " not found at "
                          ++ rec_file_path dm "20240309140500" ++ ".")%string] /\
    rec_dir w' = rec_dir w0 /\
    log_file w' = log_file w0.
Proof.
  split; [reflexivity|].
  apply (@update_missing_reports_and_keeps_store dm "20240309140500" "APPLIED" None "note" w0).
  reflexivity.
Defined.

(** ** C4: a saved recommendation reads back as pending *)

(** C4.  Whatever the text, the snapshot, the goal and the algorithm,
    [save_recommendation] (its write going through) returns an identifier
    under which [load_recommendation] finds a record with status
    PENDING_USER_APPLY, the text, snapshot, goal and algorithm given, an
    empty actual-performance mapping and no last_updated field. *)
Theorem save_then_load_pending self text snap goal alg w :
  writable (rec_file_name (strftime_id (clock w (tick w)))) w ->
  exists rec_id d w1 w2,
    save_recommendation self text snap goal alg w = Ret rec_id w1 /\
    load_recommendation self rec_id w1 = Ret (Some (JDict d)) w2 /\
    Dict.get "applied_status" d = Some (JStr "PENDING_USER_APPLY") /\
    Dict.get "llm_recommendation_text" d = Some (JStr text) /\
    Dict.get "system_snapshot_at_recommendation" d = Some snap /\
    Dict.get "user_goal" d = Some (JStr goal) /\
    Dict.get "mining_algorithm" d = Some (JStr alg) /\
    Dict.get "actual_performance_after_apply" d = Some (JDict []) /\
    Dict.get "last_updated" d = None.
Proof.
  intros H. do 4 eexists. split.
  - apply save_recommendation_writable, H.
  - split.
    + apply load_recommendation_record, holds_record_after_set.
    + repeat split; reflexivity.
Qed.

Lemma save_then_load_pending_witness :
  writable (rec_file_name (strftime_id (clock w0 (tick w0)))) w0 /\
  exists rec_id d w1 w2,
    save_recommendation dm "Core +100MHz" (JDict [("gpu", JInt 65)]) "efficiency" "Ethash" w0
      = Ret rec_id w1 /\
    load_recommendation dm rec_id w1 = Ret (Some (JDict d)) w2 /\
    Dict.get "applied_status" d = Some (JStr "PENDING_USER_APPLY") /\
    Dict.get "llm_recommendation_text" d = Some (JStr "Core +100MHz") /\
    Dict.get "system_snapshot_at_recommendation" d = Some (JDict [("gpu", JInt 65)]) /\
    Dict.get "user_goal" d = Some (JStr "efficiency") /\
    Dict.get "mining_algorithm" d = Some (JStr "Ethash") /\
    Dict.get "actual_performance_after_apply" d = Some (JDict []) /\
    Dict.get "last_updated" d = None.
Proof.
  assert (H : writable (rec_file_name (strftime_id (clock w0 (tick w0)))) w0)
    by (unfold writable; simpl; discriminate).
  split; [exact H|].
  exact (@save_then_load_pending dm "Core +100MHz" (JDict [("gpu", JInt 65)])
           "efficiency" "Ethash" w0 H).
Defined.

(** ** C1: two saves within one second *)

(** C1.  When the clock shows the same second at the start of two
    successive calls of [save_recommendation] (and the write goes through),
    both calls return the same identifier without raising, the document of
    the second call replaces that of the first, and [load_recommendation]
    of the identifier returns the second call's text, snapshot, goal and
    algorithm. *)
Theorem same_second_saves_collide self text1 snap1 goal1 alg1 text2 snap2 goal2 alg2 w :
  strftime_id (clock w (2 + tick w)) = strftime_id (clock w (tick w)) ->
  writable (rec_file_name (strftime_id (clock w (tick w)))) w ->
  exists rec_id w1 w2 w3,
    let second := rec_data rec_id (clock w (3 + tick w)) text2 snap2 goal2 alg2 in
    save_recommendation self text1 snap1 goal1 alg1 w = Ret rec_id w1 /\
    save_recommendation self text2 snap2 goal2 alg2 w1 = Ret rec_id w2 /\
    holds_record (rec_file_name rec_id) second w2 /\
    List.length (rec_dir w2) = List.length (rec_dir w1) /\
    load_recommendation self rec_id w2 = Ret (Some (JDict second)) w3 /\
    Dict.get "llm_recommendation_text" second = Some (JStr text2) /\
    Dict.get "system_snapshot_at_recommendation" second = Some snap2 /\
    Dict.get "user_goal" second = Some (JStr goal2) /\
    Dict.get "mining_algorithm" second = Some (JStr alg2).
Proof.
  intros Hsec Hw.
  change (2 + tick w)%nat with (S (S (tick w))) in Hsec.
  change (3 + tick w)%nat with (S (S (S (tick w)))).
  pose proof (save_recommendation_writable self text1 snap1 goal1 alg1 Hw) as E1.
  cbv zeta in E1.
  set (rec_id := strftime_id (clock w (tick w))) in *.
  match type of E1 with _ = Ret _ ?w' => set (w1 := w') in * end.
  assert (Hid : strftime_id (clock w1 (tick w1)) = rec_id) by exact Hsec.
  assert (Hw1 : writable (rec_file_name (strftime_id (clock w1 (tick w1)))) w1).
  { rewrite Hid. unfold writable, w1; cbn [rec_dir].
    rewrite get_set_same. discriminate. }
  pose proof (save_recommendation_writable self text2 snap2 goal2 alg2 Hw1) as E2.
  cbv zeta in E2. rewrite Hid in E2.
  match type of E2 with _ = Ret _ ?w' => set (w2 := w') in * end.
  assert (Hrec : holds_record (rec_file_name rec_id)
                   (rec_data rec_id (clock w (S (S (S (tick w))))) text2 snap2 goal2 alg2) w2)
    by apply holds_record_after_set.
  exists rec_id, w1, w2, w2. cbv zeta.
  split; [exact E1|]. split; [exact E2|]. split; [exact Hrec|].
  split; [|split; [now apply load_recommendation_record | repeat split; reflexivity]].
  unfold w2; cbn [rec_dir]. apply set_present_length.
  unfold w1; cbn [rec_dir]. unfold Dict.mem. now rewrite get_set_same.
Qed.

Lemma same_second_saves_collide_witness :
  strftime_id (clock w0 (2 + tick w0)) = strftime_id (clock w0 (tick w0)) /\
  writable (rec_file_name (strftime_id (clock w0 (tick w0)))) w0 /\
  exists rec_id w1 w2 w3,
    let second := rec_data rec_id (clock w0 (3 + tick w0)) "second" (JInt 2) "g2" "a2" in
    save_recommendation dm "first" (JInt 1) "g1" "a1" w0 = Ret rec_id w1 /\
    save_recommendation dm "second" (JInt 2) "g2" "a2" w1 = Ret rec_id w2 /\
    holds_record (rec_file_name rec_id) second w2 /\
    List.length (rec_dir w2) = List.length (rec_dir w1) /\
    load_recommendation dm rec_id w2 = Ret (Some (JDict second)) w3 /\
    Dict.get "llm_recommendation_text" second = Some (JStr "second") /\
    Dict.get "system_snapshot_at_recommendation" second = Some (JInt 2) /\
    Dict.get "user_goal" second = Some (JStr "g2") /\
    Dict.get "mining_algorithm" second = Some (JStr "a2").
Proof.
  assert (Hsec : strftime_id (clock w0 (2 + tick w0)) = strftime_id (clock w0 (tick w0)))
    by reflexivity.
  assert (Hw : writable (rec_file_name (strftime_id (clock w0 (tick w0)))) w0)
    by (unfold writable; simpl; discriminate).
  split; [exact Hsec|]. split; [exact Hw|].
  exact (@same_second_saves_collide dm "first" (JInt 1) "g1" "a1"
           "second" (JInt 2) "g2" "a2" w0 Hsec Hw).
Defined.

(** ** Timestamps and the order on strings *)

Section StringOrder.

Lemma ascii_compare_refl c : Ascii.compare c c = Eq.
Proof. unfold Ascii.compare. apply N.compare_refl. Qed.

Lemma string_compare_refl s : String.compare s s = Eq.
Proof. induction s as [|c s IH]; simpl; [reflexivity|]. now rewrite ascii_compare_refl. Qed.

Lemma length_append s t : String.length (s ++ t) = (String.length s + String.length t)%nat.
Proof. induction s; simpl; auto. Qed.

(** Comparing two strings that start with segments of equal length. *)
Lemma compare_segments a b s t :
  String.length a = String.length b ->
  String.compare (a ++ s) (b ++ t)
  = match String.compare a b with Eq => String.compare s t | c => c end.
Proof.
  revert b. induction a as [|x a IH]; intros [|y b] H; simpl in *; try discriminate.
  - reflexivity.
  - destruct (Ascii.compare x y); auto.
Qed.

Lemma length_pad w z : String.length (Str.pad w z) = w.
Proof.
  revert z. induction w as [|w IH]; intros z; simpl; [reflexivity|].
  rewrite length_append, IH. simpl. lia.
Qed.

Lemma digit_compare a b :
  0 <= a < 10 -> 0 <= b < 10 ->
  Ascii.compare (ascii_of_nat (48 + Z.to_nat a)) (ascii_of_nat (48 + Z.to_nat b)) = (a ?= b)%Z.
Proof.
  intros Ha Hb. unfold Ascii.compare, ascii_of_nat.
  assert (Hn : forall z, 0 <= z < 10 -> N.of_nat (48 + Z.to_nat z) = Z.to_N (48 + z)).
  { intros z Hz. apply N2Z.inj.
    rewrite nat_N_Z, Nat2Z.inj_add, !Z2N.id, Z2Nat.id by lia. reflexivity. }
  rewrite !Hn by assumption.
  rewrite !N_ascii_embedding.
  - rewrite Z2N.inj_compare by lia. apply Z.add_compare_mono_l.
  - apply N2Z.inj_lt. rewrite Z2N.id by lia. change (Z.of_N 256) with 256. lia.
  - apply N2Z.inj_lt. rewrite Z2N.id by lia. change (Z.of_N 256) with 256. lia.
Qed.

(** Zero-padded numbers compare as the numbers do. *)
Lemma compare_lex_digits q1 r1 q2 r2 :
  0 <= r1 < 10 -> 0 <= r2 < 10 ->
  match (q1 ?= q2)%Z with Eq => (r1 ?= r2)%Z | c => c end
  = (10 * q1 + r1 ?= 10 * q2 + r2)%Z.
Proof.
  intros H1 H2. symmetry.
  destruct (Z.compare_spec q1 q2) as [E|L|G].
  - subst. apply Z.add_compare_mono_l.
  - apply Z.compare_lt_iff. lia.
  - apply Z.compare_gt_iff. lia.
Qed.

Lemma pad_compare w a b :
  0 <= a < 10 ^ Z.of_nat w -> 0 <= b < 10 ^ Z.of_nat w ->
  String.compare (Str.pad w a) (Str.pad w b) = (a ?= b)%Z.
Proof.
  revert a b. induction w as [|w IH]; intros a b Ha Hb.
  - change (10 ^ Z.of_nat 0) with 1 in *.
    assert (a = 0) by lia. assert (b = 0) by lia. subst. reflexivity.
  - rewrite Nat2Z.inj_succ, Z.pow_succ_r in Ha, Hb by lia.
    cbn [Str.pad]. rewrite compare_segments by now rewrite !length_pad.
    rewrite IH by (split; [apply Z.div_pos; lia | apply Z.div_lt_upper_bound; lia]).
    cbn [String.compare]. unfold Str.digit.
    rewrite digit_compare by (apply Z.mod_pos_bound; lia).
    transitivity (10 * (a / 10) + a mod 10 ?= 10 * (b / 10) + b mod 10)%Z.
    + rewrite <- compare_lex_digits by (apply Z.mod_pos_bound; lia).
      destruct (a / 10 ?= b / 10)%Z, (a mod 10 ?= b mod 10)%Z; reflexivity.
    + now rewrite <- !Z.div_mod by lia.
Qed.

Lemma fraction_compare a b :
  0 <= a <= 999999 -> 0 <= b <= 999999 ->
  String.compare (if (a =? 0)%Z then "" else "." ++ Str.pad 6 a)
                 (if (b =? 0)%Z then "" else "." ++ Str.pad 6 b)
  = (a ?= b)%Z.
Proof.
  intros Ha Hb.
  destruct (Z.eqb_spec a 0) as [->|Na]; destruct (Z.eqb_spec b 0) as [->|Nb].
  - reflexivity.
  - cbn [String.append String.compare]. symmetry. apply Z.compare_lt_iff. lia.
  - cbn [String.append String.compare]. symmetry. apply Z.compare_gt_iff. lia.
  - rewrite compare_segments by reflexivity.
    rewrite string_compare_refl. apply pad_compare.
    + change (10 ^ Z.of_nat 6) with 1000000. lia.
    + change (10 ^ Z.of_nat 6) with 1000000. lia.
Qed.

(** ISO timestamps compare as the instants they print. *)
Theorem isoformat_compare a b :
  valid_datetime a -> valid_datetime b ->
  String.compare (isoformat a) (isoformat b) = datetime_compare a b.
Proof.
  intros (Hy & Hm & Hd & Hh & Hmi & Hs & Hu) (Hy' & Hm' & Hd' & Hh' & Hmi' & Hs' & Hu').
  unfold isoformat, datetime_compare, datetime_key. cbn [lex_compare].
  repeat (rewrite compare_segments by (rewrite ?length_pad; reflexivity);
          rewrite ?string_compare_refl).
  rewrite fraction_compare by assumption.
  rewrite !pad_compare
    by (first [ change (10 ^ Z.of_nat 4) with 10000
              | change (10 ^ Z.of_nat 2) with 100 ]; lia).
  destruct (microsecond a ?= microsecond b)%Z; reflexivity.
Qed.

Corollary isoformat_increasing a b :
  valid_datetime a -> valid_datetime b ->
  datetime_lt a b = true -> String.ltb (isoformat a) (isoformat b) = true.
Proof.
  intros Ha Hb. unfold datetime_lt, String.ltb.
  now rewrite isoformat_compare.
Qed.
End StringOrder.

(** ** C9: an empty actual-metrics mapping *)

(** C9.  On an existing record, [update_recommendation_status] called
    with the empty mapping [{}] leaves actual_performance_after_apply as
    it was, and the call has the same result and the same effect on the
    store as the call that omits the argument. *)
Theorem empty_metrics_same_as_omitted self rec_id status notes d w :
  holds_record (rec_file_name rec_id) d w ->
  update_recommendation_status self rec_id status (Some []) notes w
  = update_recommendation_status self rec_id status None notes w /\
  exists d' w1 w2,
    update_recommendation_status self rec_id status (Some []) notes w = Ret tt w1 /\
    load_recommendation self rec_id w1 = Ret (Some (JDict d')) w2 /\
    Dict.get "actual_performance_after_apply" d'
    = Dict.get "actual_performance_after_apply" d.
Proof.
  intros H. split; [reflexivity|].
  do 3 eexists. split; [apply (update_existing _ _ _ _ H)|].
  split; [apply load_recommendation_record, holds_record_after_set|].
  unfold updated_record.
  rewrite get_set_other by discriminate.
  destruct (Str.nonempty notes).
  - now rewrite !get_set_other by discriminate.
  - now rewrite get_set_other by discriminate.
Qed.

Lemma empty_metrics_same_as_omitted_witness :
  holds_record (rec_file_name "20240309140500") applied_record w_applied /\
  update_recommendation_status dm "20240309140500" "REVERTED" (Some []) "" w_applied
  = update_recommendation_status dm "20240309140500" "REVERTED" None "" w_applied /\
  exists d' w1 w2,
    update_recommendation_status dm "20240309140500" "REVERTED" (Some []) "" w_applied
      = Ret tt w1 /\
    load_recommendation dm "20240309140500" w1 = Ret (Some (JDict d')) w2 /\
    Dict.get "actual_performance_after_apply" d'
    = Dict.get "actual_performance_after_apply" applied_record.
Proof.
  assert (H : holds_record (rec_file_name "20240309140500") applied_record w_applied)
    by reflexivity.
  split; [exact H|].
  exact (@empty_metrics_same_as_omitted dm "20240309140500" "REVERTED" "" applied_record
           w_applied H).
Defined.

(** ** The metrics log *)

(** [log_metrics] never raises. *)
Lemma log_metrics_returns self metrics context w :
  returns (log_metrics self metrics context w).
Proof.
  unfold log_metrics, bind, now, try_except, open_append_line; simpl.
  destruct (log_file w); exact I.
Qed.

(** What [log_metrics] does when the log can be opened. *)
Lemma log_metrics_appends self metrics context w :
  log_file w <> LogDir ->
  log_metrics self metrics context w
  = Ret tt
      (mk_world (rec_dir w)
         (LogLines (log_lines (log_file w)
                      ++ [Json (JDict (log_entry (clock w (tick w)) metrics context))]))
         (clock w) (S (tick w)) (out w)).
Proof.
  intros H. unfold log_metrics, bind, now, try_except, open_append_line; simpl.
  destruct (log_file w); [reflexivity | reflexivity | congruence].
Qed.

(** Every entry carries the keys [timestamp] and [metrics]. *)
Lemma log_entry_keys ts metrics context :
  Dict.mem "timestamp" (log_entry ts metrics context) = true /\
  Dict.mem "metrics" (log_entry ts metrics context) = true.
Proof.
  unfold log_entry.
  destruct (truthy_dict context); [destruct context as [c|]|];
    split; try reflexivity; now apply mem_update.
Qed.

(** ** C10: the context is merged last *)

(** C10.  [log_metrics] merges the context into the entry after the
    timestamp and the metrics are set: for a context that binds
    ["timestamp"] or ["metrics"], the line written holds the context's
    value under that key. *)
Theorem context_overrides_entry_fields self metrics (c : dict) k v w :
  k = "timestamp" \/ k = "metrics" ->
  NoDup (Dict.keys c) ->
  Dict.get k c = Some v ->
  log_file w <> LogDir ->
  exists w',
    let entry := Dict.update [("timestamp", JStr (isoformat (clock w (tick w))));
                              ("metrics", metrics)] c in
    log_metrics self metrics (Some c) w = Ret tt w' /\
    log_lines (log_file w') = log_lines (log_file w) ++ [Json (JDict entry)] /\
    Dict.get k entry = Some v.
Proof.
  intros _ Hnd Hk Hlog. eexists. cbv zeta. split; [|split].
  - apply log_metrics_appends, Hlog.
  - simpl. unfold log_entry. destruct c; [discriminate|]. reflexivity.
  - now apply get_update_present.
Qed.

Lemma context_overrides_entry_fields_witness :
  let c := [("recommendation_id", JStr "20240309140500"); ("timestamp", JStr "yesterday")] in
  ("timestamp" = "timestamp" \/ "timestamp" = "metrics") /\
  NoDup (Dict.keys c) /\
  Dict.get "timestamp" c = Some (JStr "yesterday") /\
  log_file w0 <> LogDir /\
  exists w',
    let entry := Dict.update [("timestamp", JStr (isoformat (clock w0 (tick w0))));
                              ("metrics", JInt 1)] c in
    log_metrics dm (JInt 1) (Some c) w0 = Ret tt w' /\
    log_lines (log_file w') = log_lines (log_file w0) ++ [Json (JDict entry)] /\
    Dict.get "timestamp" entry = Some (JStr "yesterday").
Proof.
  intros c.
  assert (H1 : "timestamp" = "timestamp" \/ "timestamp" = "metrics") by (left; reflexivity).
  assert (H2 : NoDup (Dict.keys c)).
  { unfold c; simpl. repeat constructor; simpl; intuition discriminate. }
  assert (H3 : Dict.get "timestamp" c = Some (JStr "yesterday")) by reflexivity.
  assert (H4 : log_file w0 <> LogDir) by (simpl; discriminate).
  split; [exact H1|]. split; [exact H2|]. split; [exact H3|]. split; [exact H4|].
  exact (@context_overrides_entry_fields dm (JInt 1) c "timestamp" (JStr "yesterday") w0
           H1 H2 H3 H4).
Defined.

(** ** C5: one line per call *)

Lemma lines_written_length clk t calls :
  List.length (lines_written clk t calls) = List.length calls.
Proof.
  revert t. induction calls as [|[m c] calls IH]; simpl; intros t; [reflexivity|].
  now rewrite IH.
Qed.

Lemma lines_written_entries clk t calls : Forall is_log_entry (lines_written clk t calls).
Proof.
  revert t. induction calls as [|[m c] calls IH]; simpl; intros t; constructor; auto.
  eexists. split; [reflexivity|]. apply log_entry_keys.
Qed.

(** C5.  [N] calls of [log_metrics] on a log that can be opened return
    without raising and extend the log by exactly [N] complete lines, the
    i-th of them the entry of the i-th call; each is one JSON object with a
    timestamp and the metrics.  Each call appends its one line in a single
    write, so the lines already there are never touched. *)
Theorem log_metrics_one_line_per_call self calls w :
  log_file w <> LogDir ->
  exists w',
    log_each self calls w = Ret tt w' /\
    log_lines (log_file w')
    = log_lines (log_file w) ++ lines_written (clock w) (tick w) calls /\
    List.length (lines_written (clock w) (tick w) calls) = List.length calls /\
    Forall is_log_entry (lines_written (clock w) (tick w) calls).
Proof.
  intros H.
  enough (E : exists w', log_each self calls w = Ret tt w' /\
              log_lines (log_file w')
              = log_lines (log_file w) ++ lines_written (clock w) (tick w) calls).
  { destruct E as (w' & E1 & E2). exists w'.
    auto using lines_written_length, lines_written_entries. }
  revert w H. induction calls as [|[m c] calls IH]; intros w H.
  - exists w. simpl. now rewrite app_nil_r.
  - simpl. unfold bind at 1. rewrite log_metrics_appends by exact H.
    match goal with |- context [log_each self calls ?w1] =>
      destruct (IH w1) as (w' & E1 & E2); [simpl; discriminate|]
    end.
    exists w'. split; [exact E1|].
    rewrite E2. simpl. now rewrite <- app_assoc.
Qed.

Lemma log_metrics_one_line_per_call_witness :
  let calls := [ (JInt 1, Some [("test_context", JStr "initial_state")]);
                 (JInt 2, None); (JInt 3, Some []) ] in
  log_file w0 <> LogDir /\
  exists w',
    log_each dm calls w0 = Ret tt w' /\
    log_lines (log_file w')
    = log_lines (log_file w0) ++ lines_written (clock w0) (tick w0) calls /\
    List.length (lines_written (clock w0) (tick w0) calls) = List.length calls /\
    Forall is_log_entry (lines_written (clock w0) (tick w0) calls).
Proof.
  intros calls.
  assert (H : log_file w0 <> LogDir) by (simpl; discriminate).
  split; [exact H|].
  exact (@log_metrics_one_line_per_call dm calls w0 H).
Defined.


(** ** C2: an update read back *)

(** C2, as stated, fails: given the empty mapping, the update keeps the
    stored actual-performance mapping instead of replacing it by [{}]. *)
Lemma update_then_load_as_stated_fails : ~ update_then_load_as_stated.
Proof.
  intros C.
  destruct (C dm "20240309140500" "REVERTED" (Some []) "" applied_record w_applied eq_refl)
    as (d' & w1 & w2 & Hu & Hl & _ & Ham & _).
  rewrite (@update_existing dm "20240309140500" "REVERTED" (Some []) "" applied_record
             w_applied eq_refl) in Hu.
  injection Hu as <-.
  vm_compute in Hl. inversion Hl; subst d'.
  vm_compute in Ham. discriminate Ham.
Qed.

(** C2, amended.  After [update_recommendation_status] on an existing
    record, [load_recommendation] returns a record whose applied_status is
    the status given, whose actual_performance_after_apply is the mapping
    given when that mapping is not empty and is unchanged when it is empty
    or omitted, whose user_notes are the notes given when not empty and
    unchanged otherwise, and whose last_updated is the clock reading of the
    update, which compares greater than the creation timestamp when the
    clock has moved on since the creation; every other field is unchanged. *)
Theorem update_then_load self rec_id status actual_metrics notes d w :
  holds_record (rec_file_name rec_id) d w ->
  exists d' w1 w2,
    update_recommendation_status self rec_id status actual_metrics notes w = Ret tt w1 /\
    load_recommendation self rec_id w1 = Ret (Some (JDict d')) w2 /\
    Dict.get "applied_status" d' = Some (JStr status) /\
    Dict.get "actual_performance_after_apply" d'
    = match actual_metrics with
      | Some ((_ :: _) as m) => Some (JDict m)
      | _ => Dict.get "actual_performance_after_apply" d
      end /\
    Dict.get "user_notes" d'
    = (if Str.nonempty notes then Some (JStr notes) else Dict.get "user_notes" d) /\
    Dict.get "last_updated" d' = Some (JStr (isoformat (clock w (tick w)))) /\
    (forall created,
        valid_datetime created -> valid_datetime (clock w (tick w)) ->
        Dict.get "timestamp" d = Some (JStr (isoformat created)) ->
        datetime_lt created (clock w (tick w)) = true ->
        exists ts lu,
          Dict.get "timestamp" d' = Some (JStr ts) /\
          Dict.get "last_updated" d' = Some (JStr lu) /\
          py_lt (JStr ts) (JStr lu) = Some true) /\
    (forall k, k <> "applied_status" -> k <> "actual_performance_after_apply" ->
               k <> "user_notes" -> k <> "last_updated" ->
               Dict.get k d' = Dict.get k d).
Proof.
  intros H. do 3 eexists.
  split; [apply (update_existing _ _ _ _ H)|].
  split; [apply load_recommendation_record, holds_record_after_set|].
  assert (Hother : forall k, k <> "applied_status" -> k <> "actual_performance_after_apply" ->
                     k <> "user_notes" -> k <> "last_updated" ->
                     Dict.get k (updated_record d status actual_metrics notes (clock w (tick w)))
                     = Dict.get k d).
  { intros k H1 H2 H3 H4. unfold updated_record.
    rewrite get_set_other by congruence.
    destruct (Str.nonempty notes); [rewrite get_set_other by congruence|];
      (destruct actual_metrics as [[|kv m]|]; [| rewrite get_set_other by congruence |]);
      now rewrite get_set_other by congruence. }
  split; [|split; [|split; [|split; [|split]]]].
  - unfold updated_record. rewrite get_set_other by discriminate.
    destruct (Str.nonempty notes); [rewrite get_set_other by discriminate|];
      (destruct actual_metrics as [[|kv m]|]; [| rewrite get_set_other by discriminate |]);
      apply get_set_same.
  - unfold updated_record. rewrite get_set_other by discriminate.
    destruct (Str.nonempty notes); [rewrite get_set_other by discriminate|];
      (destruct actual_metrics as [[|kv m]|];
       [| now rewrite get_set_same |]); now rewrite get_set_other by discriminate.
  - unfold updated_record. rewrite get_set_other by discriminate.
    destruct (Str.nonempty notes); [now rewrite get_set_same|].
    destruct actual_metrics as [[|kv m]|]; [| rewrite get_set_other by discriminate |];
      now rewrite get_set_other by discriminate.
  - unfold updated_record. apply get_set_same.
  - intros created Hc Hn Hts Hlt.
    exists (isoformat created), (isoformat (clock w (tick w))).
    split; [rewrite Hother by discriminate; exact Hts|].
    split; [unfold updated_record; apply get_set_same|].
    simpl. f_equal. now apply isoformat_increasing.
  - exact Hother.
Qed.

Lemma update_then_load_witness :
  holds_record (rec_file_name "20240309140500") applied_record w_applied /\
  exists d' w1 w2,
    update_recommendation_status dm "20240309140500" "REVERTED"
      (Some [("hash_rate_mhps", JInt 55)]) "unstable" w_applied = Ret tt w1 /\
    load_recommendation dm "20240309140500" w1 = Ret (Some (JDict d')) w2 /\
    Dict.get "applied_status" d' = Some (JStr "REVERTED") /\
    Dict.get "actual_performance_after_apply" d'
    = Some (JDict [("hash_rate_mhps", JInt 55)]) /\
    Dict.get "user_notes" d' = Some (JStr "unstable") /\
    Dict.get "last_updated" d' = Some (JStr (isoformat (clock w_applied (tick w_applied)))) /\
    (forall created,
        valid_datetime created -> valid_datetime (clock w_applied (tick w_applied)) ->
        Dict.get "timestamp" applied_record = Some (JStr (isoformat created)) ->
        datetime_lt created (clock w_applied (tick w_applied)) = true ->
        exists ts lu,
          Dict.get "timestamp" d' = Some (JStr ts) /\
          Dict.get "last_updated" d' = Some (JStr lu) /\
          py_lt (JStr ts) (JStr lu) = Some true) /\
    (forall k, k <> "applied_status" -> k <> "actual_performance_after_apply" ->
               k <> "user_notes" -> k <> "last_updated" ->
               Dict.get k d' = Dict.get k applied_record).
Proof.
  assert (H : holds_record (rec_file_name "20240309140500") applied_record w_applied)
    by reflexivity.
  split; [exact H|].
  exact (@update_then_load dm "20240309140500" "REVERTED"
           (Some [("hash_rate_mhps", JInt 55)]) "unstable" applied_record w_applied H).
Defined.

(** The record of [w_applied] was created before the clock reading of its
    update: the premises on the timestamps above can be met. *)
Example applied_record_timestamps :
  valid_datetime applied_record_created /\
  valid_datetime (clock w_applied (tick w_applied)) /\
  Dict.get "timestamp" applied_record = Some (JStr (isoformat applied_record_created)) /\
  datetime_lt applied_record_created (clock w_applied (tick w_applied)) = true.
Proof. unfold valid_datetime; simpl; repeat split; try reflexivity; lia. Qed.

(** ** C8: the model call always yields a text *)

Lemma prefix_append p s : String.prefix p (p ++ s) = true.
Proof.
  induction p as [|c p IH]; simpl.
  - now destruct s.
  - destruct (ascii_dec c c) as [_|N]; [exact IH | now elim N].
Qed.

Lemma append_assoc (a b c : string) : ((a ++ b) ++ c = a ++ (b ++ c))%string.
Proof. induction a as [|x a IH]; simpl; [reflexivity | now rewrite IH]. Qed.

(** The diagnostic message opens with the same words in both branches. *)
Lemma error_message_opening self e :
  Str.startswith (LLM.error_message self e)
    "Error: Could not get recommendations from LLM. Details: " = true.
Proof.
  unfold Str.startswith, LLM.error_message. cbv zeta.
  destruct (_ && _); rewrite !append_assoc; apply prefix_append.
Qed.

(** C8.  [get_overclock_recommendations] returns a string on every
    input and for every behaviour of the model server: the server's
    response text when the call succeeds, and, when the call raises any
    exception, the diagnostic message built from it, which is returned in
    place of the recommendation instead of the exception going on to the
    caller. *)
Theorem get_overclock_recommendations_returns_text
    self (generate : LLM.ollama) system_summary algorithm user_goal printed :
  exists text printed',
    LLM.get_overclock_recommendations self generate system_summary algorithm user_goal printed
    = Ret text printed' /\
    match generate (LLM.llm_model self) (LLM.prompt system_summary algorithm user_goal)
            false LLM.options with
    | inr response =>
        text = match Dict.get "response" response with
               | Some t => t
               | None => "LLM did not return a valid response."
               end
    | inl e =>
        text = LLM.error_message self e /\
        Str.startswith text "Error: Could not get recommendations from LLM. Details: " = true /\
        In ("[LLM ERROR] " ++ text)%string printed'
    end.
Proof.
  unfold LLM.get_overclock_recommendations, try_except, bind, LLM.print, modify, lift.
  destruct (generate _ _ _ _) as [e|response]; cbn.
  - do 2 eexists. split; [reflexivity|].
    split; [reflexivity|]. split; [apply error_message_opening|].
    apply in_or_app. right. now left.
  - do 2 eexists. split; reflexivity.
Qed.

Example unknown_model_text :
  exists printed',
    LLM.get_overclock_recommendations LLM.llama3 LLM.unknown_model "summary" "Ethash" "efficiency" []
    = Ret (LLM.error_message LLM.llama3
             (mk_exn ResponseError "model 'llama3' not found (status code: 404)")) printed'.
Proof. eexists. vm_compute. reflexivity. Qed.

(** ** The order on strings *)

Lemma ascii_compare_lt_trans a b c :
  Ascii.compare a b = Lt -> Ascii.compare b c = Lt -> Ascii.compare a c = Lt.
Proof.
  unfold Ascii.compare. rewrite !N.compare_lt_iff. apply N.lt_trans.
Qed.

Lemma ascii_compare_eq a b : Ascii.compare a b = Eq -> a = b.
Proof. apply Ascii.compare_eq_iff. Qed.

Lemma string_compare_lt_trans s t u :
  String.compare s t = Lt -> String.compare t u = Lt -> String.compare s u = Lt.
Proof.
  revert t u. induction s as [|a s IH]; intros [|b t] [|c u]; simpl; try congruence.
  destruct (Ascii.compare a b) eqn:Eab; try discriminate;
    destruct (Ascii.compare b c) eqn:Ebc; try discriminate; intros H1 H2.
  - apply ascii_compare_eq in Eab, Ebc. subst. rewrite ascii_compare_refl. eauto.
  - apply ascii_compare_eq in Eab. subst. now rewrite Ebc.
  - apply ascii_compare_eq in Ebc. subst. now rewrite Eab.
  - now rewrite (@ascii_compare_lt_trans _ _ _ Eab Ebc).
Qed.

Lemma ltb_trans s t u :
  String.ltb s t = true -> String.ltb t u = true -> String.ltb s u = true.
Proof.
  unfold String.ltb.
  destruct (String.compare s t) eqn:E1; try discriminate.
  destruct (String.compare t u) eqn:E2; try discriminate.
  now rewrite (@string_compare_lt_trans _ _ _ E1 E2).
Qed.

Lemma ltb_asym s t : String.ltb s t = true -> String.ltb t s = false.
Proof.
  unfold String.ltb. rewrite (String.compare_antisym t s).
  destruct (String.compare s t); simpl; congruence.
Qed.

Lemma ltb_irrefl s : String.ltb s s = false.
Proof. unfold String.ltb. now rewrite string_compare_refl. Qed.

(** [t <= s] and [s < u] give [t < u]. *)
Lemma ltb_le_lt_trans s t u :
  String.ltb s t = false -> String.ltb s u = true -> String.ltb t u = true.
Proof.
  unfold String.ltb. intros H1 H2.
  destruct (String.compare s t) eqn:E1; try discriminate.
  - apply String.compare_eq_iff in E1. now subst.
  - assert (E1' : String.compare t s = Lt).
    { rewrite (String.compare_antisym t s), E1. reflexivity. }
    destruct (String.compare s u) eqn:E2; try discriminate.
    now rewrite (@string_compare_lt_trans _ _ _ E1' E2).
Qed.

(** ** Sorting on string keys *)

Lemma py_lt_str_keys x y :
  (exists s, fst x = JStr s) -> (exists s, fst y = JStr s) ->
  py_lt (fst x) (fst y) = Some (String.ltb (skey x) (skey y)).
Proof. intros [s Hs] [t Ht]. unfold skey. now rewrite Hs, Ht. Qed.

Lemma insert_by_key_sorted x sorted :
  (exists s, fst x = JStr s) -> str_keyed sorted ->
  exists r,
    insert_by_key x sorted = Some r /\
    Permutation r (x :: sorted) /\
    str_keyed r /\
    (StronglySorted key_le sorted -> StronglySorted key_le r).
Proof.
  intros Hx Hs. induction Hs as [|y sorted Hy Hs IH].
  - exists [x]. split; [reflexivity|]. split; [reflexivity|].
    split; [constructor; auto|]. intros _. constructor; constructor.
  - simpl. rewrite py_lt_str_keys by assumption.
    destruct (String.ltb (skey x) (skey y)) eqn:Hlt.
    + exists (x :: y :: sorted). repeat split; auto.
      * constructor; [assumption|]. constructor; assumption.
      * intros Hsorted. constructor; [assumption|].
        inversion Hsorted as [|? ? Htail Hall]; subst.
        constructor.
        -- unfold key_le. now apply ltb_asym.
        -- rewrite Forall_forall in *. intros z Hz. unfold key_le in *.
           specialize (Hall z Hz).
           destruct (String.ltb (skey z) (skey x)) eqn:Hzx; [|reflexivity].
           rewrite (@ltb_trans _ _ _ Hzx Hlt) in Hall. discriminate.
    + destruct IH as (r & Hr & Hperm & Hkeys & Hsort).
      exists (y :: r). rewrite Hr. repeat split.
      * rewrite Hperm. apply perm_swap.
      * constructor; assumption.
      * intros Hsorted. inversion Hsorted as [|? ? Htail Hall]; subst.
        constructor; [auto|].
        apply (Permutation_Forall (Permutation_sym Hperm)).
        constructor; [exact Hlt | exact Hall].
Qed.

Lemma stable_sort_sorted l :
  str_keyed l ->
  exists r,
    stable_sort l = Some r /\ Permutation r l /\ str_keyed r /\ StronglySorted key_le r.
Proof.
  unfold stable_sort.
  enough (G : forall acc, str_keyed acc -> StronglySorted key_le acc -> str_keyed l ->
            exists r,
              fold_left (fun acc x => match acc with
                                      | Some s => insert_by_key x s
                                      | None => None
                                      end) l (Some acc) = Some r /\
              Permutation r (acc ++ l) /\ str_keyed r /\ StronglySorted key_le r).
  { intros H. destruct (G [] (Forall_nil _) (SSorted_nil _) H) as (r & ? & ? & ? & ?).
    exists r. auto. }
  induction l as [|x l IH]; intros acc Hacc Hsorted Hl.
  - exists acc. simpl. rewrite app_nil_r. auto.
  - inversion Hl as [|? ? Hx Hl']; subst. simpl.
    destruct (@insert_by_key_sorted x acc Hx Hacc) as (r1 & E1 & P1 & K1 & S1).
    rewrite E1.
    destruct (IH r1 K1 (S1 Hsorted) Hl') as (r & E & P & K & S).
    exists r. repeat split; auto.
    rewrite P, P1. apply Permutation_middle.
Qed.

Lemma StronglySorted_app_one {A} (R : A -> A -> Prop) l x :
  StronglySorted R l -> Forall (fun y => R y x) l -> StronglySorted R (l ++ [x]).
Proof.
  induction 1 as [|y l Hs IH Hall]; intros H; simpl.
  - constructor; constructor.
  - inversion H; subst. constructor; [auto|].
    apply Forall_app. split; [assumption | now constructor].
Qed.

Lemma StronglySorted_rev_flip {A} (R : A -> A -> Prop) l :
  StronglySorted R l -> StronglySorted (fun a b => R b a) (rev l).
Proof.
  induction 1 as [|x l Hs IH Hall]; simpl; [constructor|].
  apply StronglySorted_app_one; [assumption|].
  apply Forall_rev. assumption.
Qed.

Lemma sort_reverse_sorted l :
  str_keyed l ->
  exists r,
    sort_reverse l = Some r /\ Permutation r l /\
    StronglySorted (fun a b => key_le b a) r.
Proof.
  intros H. unfold sort_reverse.
  destruct (@stable_sort_sorted (rev l)) as (s & E & P & K & S).
  { apply Forall_rev, H. }
  rewrite E. exists (rev s). repeat split.
  - rewrite <- (Permutation_rev s), P. symmetry. apply Permutation_rev.
  - now apply StronglySorted_rev_flip.
Qed.

(** ** Loading the listed documents *)

Lemma with_out_same w : with_out (out w ++ []) w = w.
Proof. destruct w. unfold with_out; simpl. now rewrite app_nil_r. Qed.

(** [load_recommendation] returns the document when it parses, prints a
    warning when it does not, and changes nothing else. *)
Lemma load_recommendation_outcome self rec_id w :
  load_recommendation self rec_id w
  = Ret (parsed_document (rec_dir w) rec_id)
        (with_out (out w ++ load_warning self (rec_dir w) rec_id) w).
Proof.
  unfold load_recommendation, parsed_document, load_warning, bind, path_exists, Dict.mem,
    try_except, open_load.
  destruct (Dict.get (rec_file_name rec_id) (rec_dir w)) as [[[j|e]|]|] eqn:E;
    cbv beta iota; rewrite ?E; cbv beta iota;
    try (now rewrite with_out_same);
    try (destruct (is_class JSONDecodeError e)); reflexivity.
Qed.

Lemma load_listed_outcome self names recommendations w :
  load_listed self names recommendations w
  = Ret (recommendations ++ records_of (rec_dir w) names)
        (with_out (out w ++ warnings_of self (rec_dir w) names) w).
Proof.
  revert recommendations w.
  induction names as [|name names IH]; intros acc w.
  - simpl. now rewrite app_nil_r, with_out_same.
  - cbn [load_listed records_of warnings_of]. fold (listed name). fold (id_of_filename name).
    destruct (listed name); [|apply IH].
    unfold bind at 1. rewrite load_recommendation_outcome.
    destruct (parsed_document (rec_dir w) (id_of_filename name)) as [j|];
      [destruct (truthy j)|]; rewrite IH; cbn [rec_dir out with_out];
      unfold with_out; cbn [rec_dir log_file clock tick out];
      rewrite <- ?app_assoc; reflexivity.
Qed.

(** ** Sorting the records *)

Lemma with_keys_well_formed l (w : world) :
  Forall well_formed_record l -> with_keys l w = Ret (keyed l) w.
Proof.
  induction 1 as [|x l Hx Hl IH]; [reflexivity|].
  cbn [with_keys keyed map]. unfold bind at 1.
  destruct Hx as (d & -> & Hts). cbn [timestamp_key timestamp_of].
  assert (E : match Dict.get "timestamp" d with Some v => v | None => JStr "" end
              = JStr match Dict.get "timestamp" d with Some (JStr s) => s | _ => "" end).
  { destruct Hts as [-> | [s ->]]; reflexivity. }
  rewrite E. unfold ret at 1. unfold bind at 1. rewrite IH. reflexivity.
Qed.

Lemma StronglySorted_map {A B} (f : A -> B) (R : B -> B -> Prop) l :
  StronglySorted (fun a b => R (f a) (f b)) l -> StronglySorted R (map f l).
Proof.
  induction 1 as [|x l Hs IH Hall]; simpl; constructor; auto.
  rewrite Forall_map. exact Hall.
Qed.

Lemma StronglySorted_weaken {A} (P : A -> Prop) (R R' : A -> A -> Prop) l :
  (forall a b, P a -> P b -> R a b -> R' a b) ->
  Forall P l -> StronglySorted R l -> StronglySorted R' l.
Proof.
  intros HR HP. induction 1 as [|x l Hs IH Hall]; constructor.
  - apply IH. now inversion HP.
  - inversion HP as [|? ? Px Pl]; subst.
    rewrite Forall_forall in *. intros y Hy. apply HR; auto.
Qed.

(** The sort of [load_all_recommendations] on well-formed records. *)
Lemma sort_by_timestamp_sorted l (w : world) :
  Forall well_formed_record l ->
  exists r,
    sort_by_timestamp l w = Ret r w /\
    Permutation r l /\
    StronglySorted newer_or_same r.
Proof.
  intros H. unfold sort_by_timestamp, bind. rewrite with_keys_well_formed by exact H.
  assert (Hk : str_keyed (keyed l)).
  { unfold keyed. apply Forall_map, Forall_forall. intros x _. now eexists. }
  destruct (@sort_reverse_sorted (keyed l) Hk) as (s & E & P & S).
  rewrite E. exists (map snd s). split; [reflexivity|].
  assert (Hshape : Forall (fun kx => fst kx = JStr (timestamp_of (snd kx))) s).
  { apply (Permutation_Forall (Permutation_sym P)).
    unfold keyed. apply Forall_map, Forall_forall. now intros x _. }
  split.
  - replace l with (map snd (keyed l)).
    + now apply Permutation_map.
    + unfold keyed. rewrite map_map. apply map_id.
  - apply StronglySorted_map. set (key_flip := fun a b : json * json => key_le b a) in S.
    apply (@StronglySorted_weaken _ (fun kx => fst kx = JStr (timestamp_of (snd kx))) key_flip);
      [|exact Hshape|exact S].
    intros a b Ha Hb. subst key_flip. cbv beta.
    unfold key_le, newer_or_same, skey. now rewrite Ha, Hb.
Qed.

(** The six arrangements of three elements. *)
Lemma Permutation_three {A} (l : list A) a b c :
  Permutation l [a; b; c] ->
  l = [a; b; c] \/ l = [a; c; b] \/ l = [b; a; c] \/
  l = [b; c; a] \/ l = [c; a; b] \/ l = [c; b; a].
Proof.
  intros H.
  destruct (Permutation_vs_cons_inv H) as (l1 & l2 & ->).
  apply Permutation_sym, Permutation_cons_app_inv, Permutation_length_2_inv in H.
  destruct l1 as [|x [|y [|z l1]]]; simpl in *;
    destruct H as [H|H]; try discriminate;
    try (injection H as <- <-); try (injection H as <- <- <-); subst; auto 10;
    try (destruct l1; discriminate).
Qed.

(** ** C6: the listing, most recent first *)

Lemma sorted_three r1 r2 r3 l :
  String.ltb (timestamp_of r1) (timestamp_of r2) = true ->
  String.ltb (timestamp_of r2) (timestamp_of r3) = true ->
  Permutation l [r1; r2; r3] ->
  StronglySorted newer_or_same l ->
  l = [r3; r2; r1].
Proof.
  intros H12 H23 P S.
  pose proof (@ltb_trans _ _ _ H12 H23) as H13.
  destruct (Permutation_three P) as [ -> | [ -> | [ -> | [ -> | [ -> | -> ]]]]]; [..|reflexivity].
  all: repeat match goal with
       | H : StronglySorted _ (_ :: _) |- _ => inversion H; clear H; subst
       | H : Forall _ (_ :: _) |- _ => inversion H; clear H; subst
       end; unfold newer_or_same in *; congruence.
Qed.

(** C6.  [load_all_recommendations] returns the stored records, every
    one of them exactly once, most recent creation timestamp first: three
    stored records with timestamps T1 < T2 < T3 come back in the order
    T3, T2, T1 whatever the order of the directory listing.  A listed file
    on which [json.load] raises is left out, with the warning of
    [load_recommendation] printed (the decoding one for a JSONDecodeError,
    the loading one for any other exception), and the listing still
    returns; nothing in the directory is changed. *)
Theorem listing_most_recent_first self w :
  Forall well_formed_record (stored_records w) ->
  exists recs w',
    load_all_recommendations self w = Ret recs w' /\
    rec_dir w' = rec_dir w /\
    Permutation recs (stored_records w) /\
    StronglySorted newer_or_same recs /\
    (forall r1 r2 r3,
        Permutation (stored_records w) [r1; r2; r3] ->
        String.ltb (timestamp_of r1) (timestamp_of r2) = true ->
        String.ltb (timestamp_of r2) (timestamp_of r3) = true ->
        recs = [r3; r2; r1]) /\
    (forall name e,
        In name (Dict.keys (rec_dir w)) -> listed name = true ->
        Dict.get (rec_file_name (id_of_filename name)) (rec_dir w) = Some (File (Garbage e)) ->
        In ((if is_class JSONDecodeError e
             then "Error decoding JSON for recommendation "
             else "Error loading recommendation ")
            ++ id_of_filename name ++ ": " ++ exn_str e)%string (out w')).
Proof.
  intros Hwf.
  unfold load_all_recommendations, bind, listdir.
  rewrite load_listed_outcome. cbn [app].
  fold (stored_records w).
  match goal with |- context [sort_by_timestamp _ ?w1] =>
    destruct (@sort_by_timestamp_sorted (stored_records w) w1 Hwf) as (r & E & P & S)
  end.
  rewrite E. do 2 eexists. split; [reflexivity|].
  split; [reflexivity|]. split; [exact P|]. split; [exact S|]. split.
  - intros r1 r2 r3 P3 H12 H23.
    apply (@sorted_three r1 r2 r3 r H12 H23); [|exact S].
    now rewrite P.
  - intros name e Hin Hl Hg.
    cbn [out with_out]. apply in_or_app. right.
    clear - Hin Hl Hg. unfold Dict.keys in *.
    induction (map fst (rec_dir w)) as [|n names IH]; [destruct Hin|].
    cbn [warnings_of]. destruct Hin as [->|Hin].
    + rewrite Hl. apply in_or_app. left. unfold load_warning. rewrite Hg.
      left. now destruct (is_class JSONDecodeError e).
    + destruct (listed n); [apply in_or_app; right|]; auto.
Qed.

Lemma listing_most_recent_first_witness :
  Forall well_formed_record (stored_records w_busy) /\
  exists recs w',
    load_all_recommendations dm w_busy = Ret recs w' /\
    rec_dir w' = rec_dir w_busy /\
    Permutation recs (stored_records w_busy) /\
    StronglySorted newer_or_same recs /\
    (forall r1 r2 r3,
        Permutation (stored_records w_busy) [r1; r2; r3] ->
        String.ltb (timestamp_of r1) (timestamp_of r2) = true ->
        String.ltb (timestamp_of r2) (timestamp_of r3) = true ->
        recs = [r3; r2; r1]) /\
    (forall name e,
        In name (Dict.keys (rec_dir w_busy)) -> listed name = true ->
        Dict.get (rec_file_name (id_of_filename name)) (rec_dir w_busy)
        = Some (File (Garbage e)) ->
        In ((if is_class JSONDecodeError e
             then "Error decoding JSON for recommendation "
             else "Error loading recommendation ")
            ++ id_of_filename name ++ ": " ++ exn_str e)%string (out w')).
Proof.
  assert (H : Forall well_formed_record (stored_records w_busy)).
  { repeat constructor; eexists; (split; [reflexivity|]); right; eexists; reflexivity. }
  split; [exact H|].
  exact (@listing_most_recent_first dm w_busy H).
Defined.

(** On [w_busy] the listing is the three records, newest first, and
    three warnings. *)
Example listing_busy :
  exists w',
    load_all_recommendations dm w_busy
    = Ret [ JDict [("id", JStr "20240103000000"); ("timestamp", JStr "2024-01-03T00:00:00")];
            JDict [("id", JStr "20240102000000"); ("timestamp", JStr "2024-01-02T00:00:00")];
            JDict [("id", JStr "20240101000000"); ("timestamp", JStr "2024-01-01T00:00:00")] ]
          w' /\
    List.length (out w') = 3%nat.
Proof. eexists. split; [vm_compute; reflexivity | reflexivity]. Qed.

(** The three warnings, in the order of the listing. *)
Example listing_busy_warnings :
  out (after (load_all_recommendations dm) w_busy)
  = [ "Error decoding JSON for recommendation 20240104000000: Expecting property name enclosed in double quotes: line 1 column 2 (char 1)";
      "Error loading recommendation 20240106000000: 'utf-8' codec can't decode byte 0xff in position 0: invalid start byte";
      "Error loading recommendation 20240105000000: [Errno 21] Is a directory: 'app_data/recommendations/recommendation_20240105000000.json'" ].
Proof. vm_compute. reflexivity. Qed.

(** ** The names the store writes *)

Lemma digit_is_digit z : is_digit (Str.digit z) = true.
Proof.
  unfold Str.digit.
  assert (H : (0 <= z mod 10 < 10)%Z) by (apply Z.mod_pos_bound; lia).
  assert (C : (z mod 10 = 0 \/ z mod 10 = 1 \/ z mod 10 = 2 \/ z mod 10 = 3 \/ z mod 10 = 4 \/
               z mod 10 = 5 \/ z mod 10 = 6 \/ z mod 10 = 7 \/ z mod 10 = 8 \/ z mod 10 = 9)%Z)
    by lia.
  repeat (destruct C as [C|C]; [rewrite C; reflexivity|]). rewrite C. reflexivity.
Qed.

Lemma all_digits_app s t : all_digits (s ++ t)%string = all_digits s && all_digits t.
Proof.
  induction s as [|c s IH]; cbn [String.append all_digits]; [reflexivity|].
  now rewrite IH, andb_assoc.
Qed.

Lemma all_digits_pad w z : all_digits (Str.pad w z) = true.
Proof.
  revert z. induction w as [|w IH]; intros z; cbn [Str.pad]; [reflexivity|].
  rewrite all_digits_app, IH. cbn [all_digits andb]. now rewrite digit_is_digit.
Qed.

Lemma all_digits_strftime_id t : all_digits (strftime_id t) = true.
Proof. unfold strftime_id. now rewrite !all_digits_app, !all_digits_pad. Qed.

(** A pattern that starts with a character that is not a digit does not
    occur where a digit stands. *)
Lemma replace_skips_digits c old new s rest :
  is_digit c = false -> all_digits s = true ->
  Str.replace_from 0 (String c old) new (s ++ rest)%string
  = (s ++ Str.replace_from 0 (String c old) new rest)%string.
Proof.
  intros Hc. induction s as [|d s IH]; intros Hs; [reflexivity|].
  cbn [all_digits] in Hs. apply andb_prop in Hs as [Hd Hs].
  cbn [String.append Str.replace_from String.prefix].
  destruct (ascii_dec c d) as [->|_]; [congruence|].
  now rewrite IH.
Qed.

Lemma endswith_append a s : Str.endswith (a ++ s)%string s = true.
Proof.
  induction a as [|c a IH]; cbn [String.append].
  - destruct s; cbn [Str.endswith]; now rewrite String.eqb_refl.
  - cbn [Str.endswith]. now destruct (String.eqb _ _).
Qed.

Lemma listed_rec_file_name rec_id : listed (rec_file_name rec_id) = true.
Proof.
  unfold listed, rec_file_name, Str.startswith.
  rewrite prefix_append. cbn [andb].
  rewrite <- append_assoc. apply endswith_append.
Qed.

Lemma replace_from_skip n old new s rest :
  String.length s = n ->
  Str.replace_from n old new (s ++ rest)%string = Str.replace_from 0 old new rest.
Proof.
  revert n. induction s as [|c s IH]; intros n H; cbn [String.length] in H; subst n.
  - reflexivity.
  - cbn [String.append Str.replace_from]. now apply IH.
Qed.

(** The listing derives from a saved file's name the identifier it was
    saved under. *)
Lemma id_of_rec_file_name rec_id :
  all_digits rec_id = true -> id_of_filename (rec_file_name rec_id) = rec_id.
Proof.
  intros H. unfold id_of_filename, rec_file_name, Str.replace.
  assert (E1 : Str.replace_from 0 "recommendation_" ""
                 ("recommendation_" ++ rec_id ++ ".json")%string
               = (rec_id ++ ".json")%string).
  { change ("recommendation_" ++ rec_id ++ ".json")%string
      with (String "r" ("ecommendation_" ++ (rec_id ++ ".json")))%string.
    cbn [Str.replace_from].
    change (String "r" ("ecommendation_" ++ (rec_id ++ ".json")))%string
      with ("recommendation_" ++ (rec_id ++ ".json"))%string.
    rewrite prefix_append.
    change (String.length "recommendation_" - 1)%nat with 14%nat.
    rewrite (@replace_from_skip 14 "recommendation_" "" "ecommendation_"
               (rec_id ++ ".json")%string eq_refl).
    change ("" ++ ?x)%string with x.
    rewrite replace_skips_digits by (assumption || reflexivity).
    reflexivity. }
  rewrite E1.
  rewrite replace_skips_digits by (assumption || reflexivity).
  change (Str.replace_from 0 ".json" "" ".json") with "".
  clear. induction rec_id as [|c s IH]; cbn [String.append]; [reflexivity | now rewrite IH].
Qed.

Lemma records_of_In entries names name j :
  In name names -> listed name = true ->
  parsed_document entries (id_of_filename name) = Some j -> truthy j = true ->
  In j (records_of entries names).
Proof.
  intros Hin Hl Hp Ht. induction names as [|n names IH]; [destruct Hin|].
  cbn [records_of]. destruct Hin as [->|Hin].
  - rewrite Hl, Hp, Ht. now left.
  - destruct (listed n); [|auto].
    destruct (parsed_document entries (id_of_filename n)) as [j'|]; [|auto].
    destruct (truthy j'); [right|]; auto.
Qed.

Lemma set_key_In {V} k (v : V) d : In k (Dict.keys (Dict.set k v d)).
Proof.
  unfold Dict.keys. induction d as [|[k0 v0] d IH]; cbn [Dict.set map fst].
  - now left.
  - destruct (String.eqb k k0); cbn [map fst]; [now left | right; exact IH].
Qed.



(** * [system_monitor.py]: the capture *)

Module MonitorFacts.
Import Monitor.
#[local] Open Scope string_scope.
#[local] Open Scope list_scope.

(** ** The capture logic *)

Section Rules.
Context {A B : Type}.
Implicit Types (I P E : dict -> Prop).

Lemma triple_ret P (Q : A -> dict -> Prop) E (a : A) :
  (forall m, P m -> Q a m) -> triple P (ret a) Q E.
Proof. intros H c Hc. apply H, Hc. Qed.

Lemma triple_raise P (Q : A -> dict -> Prop) E (e : exn) :
  (forall m, P m -> E m) -> triple P (raise e) Q E.
Proof. intros H c Hc. apply H, Hc. Qed.

(** An external call leaves the metrics alone; when it returns, its
    result is known. *)
Lemma triple_lift P (r : exn + A) :
  triple P (lift r) (fun a m => P m /\ r = inr a) P.
Proof. intros c Hc. destruct r; simpl; auto. Qed.

Lemma triple_bind P (Q' : A -> dict -> Prop) (Q : B -> dict -> Prop) E
    (m : M capture A) (f : A -> M capture B) :
  triple P m Q' E -> (forall a, triple (Q' a) (f a) Q E) -> triple P (bind m f) Q E.
Proof.
  intros Hm Hf c Hc. unfold bind. specialize (Hm c Hc).
  destruct (m c) as [a c'|e c']; [apply Hf, Hm | exact Hm].
Qed.

Lemma triple_try_except P (Q : A -> dict -> Prop) E E'
    (m : M capture A) (handler : exn -> M capture A) :
  triple P m Q E' -> (forall e, triple E' (handler e) Q E) ->
  triple P (try_except m handler) Q E.
Proof.
  intros Hm Hh c Hc. unfold try_except. specialize (Hm c Hc).
  destruct (m c) as [a c'|e c']; [exact Hm | apply Hh, Hm].
Qed.

Lemma triple_weaken P P' (Q Q' : A -> dict -> Prop) E E' (m : M capture A) :
  triple P' m Q' E' ->
  (forall d, P d -> P' d) -> (forall a d, Q' a d -> Q a d) -> (forall d, E' d -> E d) ->
  triple P m Q E.
Proof.
  intros Hm HP HQ HE c Hc. specialize (Hm c (HP _ Hc)).
  destruct (m c); auto.
Qed.

(** A fact that does not depend on the metrics moves to the context. *)
Lemma triple_fact P (F : Prop) (Q : A -> dict -> Prop) E (m : M capture A) :
  (F -> triple P m Q E) -> triple (fun d => P d /\ F) m Q E.
Proof. intros H c [Hc HF]. now apply H. Qed.

Lemma preserves_triple I (m : M capture A) :
  preserves I m <-> triple I m (fun _ => I) I.
Proof. reflexivity. Qed.

Lemma preserves_ret I (a : A) : preserves I (ret a).
Proof. intros c Hc. exact Hc. Qed.

Lemma preserves_raise I (e : exn) : preserves I (raise (A := A) e).
Proof. intros c Hc. exact Hc. Qed.

Lemma preserves_lift I (r : exn + A) : preserves I (lift r).
Proof. intros c Hc. destruct r; exact Hc. Qed.

Lemma preserves_bind I (m : M capture A) (f : A -> M capture B) :
  preserves I m -> (forall a, preserves I (f a)) -> preserves I (bind m f).
Proof.
  intros Hm Hf c Hc. unfold bind. specialize (Hm c Hc).
  destruct (m c) as [a c'|e c']; [apply Hf, Hm | exact Hm].
Qed.

Lemma preserves_try_except I (m : M capture A) (handler : exn -> M capture A) :
  preserves I m -> (forall e, preserves I (handler e)) -> preserves I (try_except m handler).
Proof.
  intros Hm Hh c Hc. unfold try_except. specialize (Hm c Hc).
  destruct (m c) as [a c'|e c']; [exact Hm | apply Hh, Hm].
Qed.

Lemma preserves_try_finally I (m : M capture A) (cleanup : M capture unit) :
  preserves I m -> preserves I cleanup -> preserves I (try_finally m cleanup).
Proof.
  intros Hm Hc c H. unfold try_finally. specialize (Hm c H).
  destruct (m c) as [a c'|e c']; specialize (Hc c' Hm); destruct (cleanup c'); exact Hc.
Qed.

Lemma preserves_if I (b : bool) (m1 m2 : M capture A) :
  preserves I m1 -> preserves I m2 -> preserves I (if b then m1 else m2).
Proof. now destruct b. Qed.

(** A handler that never raises makes the whole [try] total. *)
Lemma total_try_except (m : M capture A) (handler : exn -> M capture A) :
  (forall e, total (handler e)) -> total (try_except m handler).
Proof.
  intros H c. unfold try_except. destruct (m c) as [a c'|e c']; [exact I | apply H].
Qed.

Lemma total_try_finally (m : M capture A) (cleanup : M capture unit) :
  total m -> total cleanup -> total (try_finally m cleanup).
Proof.
  intros Hm Hc c. unfold try_finally. specialize (Hm c).
  destruct (m c) as [a c'|e c']; [|destruct Hm].
  specialize (Hc c'). now destruct (cleanup c').
Qed.

(** A total computation that keeps [I] returns in a state with [I]. *)
Lemma total_preserves_run I (m : M capture A) c :
  total m -> preserves I m -> I (metrics c) ->
  exists a c', m c = Ret a c' /\ I (metrics c').
Proof.
  intros Ht Hp Hc. specialize (Ht c). specialize (Hp c Hc).
  destruct (m c) as [a c'|e c']; [eauto | destruct Ht].
Qed.
End Rules.

Lemma preserves_print I s : preserves I (print s).
Proof. intros c Hc. exact Hc. Qed.

Lemma total_print s : total (print s).
Proof. intros c. exact Logic.I. Qed.

Lemma set_field_set_in section key v c :
  set_field section key v c
  = Ret tt (mk_capture (set_in section key v (metrics c)) (printed c)).
Proof.
  unfold set_field, modify, set_in.
  destruct (Dict.get section (metrics c)) as [[]|]; try reflexivity; now destruct c.
Qed.

Lemma preserves_set_field (I : dict -> Prop) section key v :
  (forall m, I m -> I (set_in section key v m)) -> preserves I (set_field section key v).
Proof. intros H c Hc. rewrite set_field_set_in. apply H, Hc. Qed.

Lemma triple_set_field (P : dict -> Prop) (Q : unit -> dict -> Prop) E section key v :
  (forall m, P m -> Q tt (set_in section key v m)) -> triple P (set_field section key v) Q E.
Proof. intros H c Hc. rewrite set_field_set_in. apply H, Hc. Qed.


(** ** Fields under assignment *)

Lemma field_set_in_same section key v m fields :
  Dict.get section m = Some (JDict fields) ->
  field section key (set_in section key v m) = Some v.
Proof.
  intros H. unfold field, set_in. rewrite H, get_set_same. apply get_set_same.
Qed.

Lemma field_set_in_other section key section' key' v m :
  section <> section' \/ key <> key' ->
  field section' key' (set_in section key v m) = field section' key' m.
Proof.
  intros H. unfold field, set_in.
  destruct (Dict.get section m) as [[| | | | | |fields]|] eqn:E; try reflexivity.
  destruct (string_dec section section') as [<-|Hs].
  - rewrite get_set_same, E. destruct H as [H|H]; [congruence|].
    now apply get_set_other.
  - now rewrite get_set_other.
Qed.

Lemma section_set_in section section' key v m fields :
  Dict.get section' m = Some (JDict fields) ->
  exists fields', Dict.get section' (set_in section key v m) = Some (JDict fields').
Proof.
  intros H. unfold set_in.
  destruct (Dict.get section m) as [[| | | | | |fs]|] eqn:E; eauto.
  destruct (string_dec section section') as [<-|Hs].
  - rewrite get_set_same. eauto.
  - rewrite get_set_other by assumption. eauto.
Qed.

Lemma mem_set_in section key v k m :
  Dict.mem k m = true -> Dict.mem k (set_in section key v m) = true.
Proof.
  intros H. unfold set_in.
  destruct (Dict.get section m) as [[| | | | | |fs]|]; try exact H.
  now apply mem_set.
Qed.

Lemma present_set_in section key v section' key' m :
  present section' key' m = true -> present section' key' (set_in section key v m) = true.
Proof.
  unfold present. intros H.
  destruct (string_dec section section') as [<-|Hs];
    [destruct (string_dec key key') as [<-|Hk]|].
  - unfold field in H.
    destruct (Dict.get section m) as [[| | | | | |fields]|] eqn:E; try discriminate.
    now rewrite (@field_set_in_same section key v m fields E).
  - rewrite field_set_in_other by auto. exact H.
  - rewrite field_set_in_other by auto. exact H.
Qed.

(** A complete snapshot stays complete under every assignment. *)
Lemma complete_set_in section key v m :
  complete m = true -> complete (set_in section key v m) = true.
Proof.
  unfold complete. intros H. apply andb_prop in H as [Hts Hall].
  apply andb_true_intro. split; [now apply mem_set_in|].
  rewrite forallb_forall in *. intros sk Hsk. apply present_set_in, Hall, Hsk.
Qed.

Lemma key_of_inj r r' : key_of r = key_of r' -> r = r'.
Proof. destruct r, r'; cbn [key_of]; intros H; try reflexivity; discriminate H. Qed.

Section Marked.
Variable h : host.

(** Writing the marker keeps every failure marked. *)
Lemma marked_set_unavailable key v m :
  is_unavailable v = true ->
  failures_marked h m -> failures_marked h (set_in "gpu" key v m).
Proof.
  intros Hv [[fields Hg] Hm]. split; [eapply section_set_in; eauto|].
  intros r Hr. destruct (string_dec key (key_of r)) as [->|Hk].
  - exists v. split; [eapply field_set_in_same; eauto | exact Hv].
  - rewrite field_set_in_other by auto. apply Hm, Hr.
Qed.

(** Writing the field of a reading that succeeded keeps every failure
    marked. *)
Lemma marked_set_own r v m :
  succeeded (source h r) = true ->
  failures_marked h m -> failures_marked h (set_in "gpu" (key_of r) v m).
Proof.
  intros Hok [[fields Hg] Hm]. split; [eapply section_set_in; eauto|].
  intros r' Hr'. destruct (string_dec (key_of r) (key_of r')) as [E|Hk].
  - apply key_of_inj in E. subst r'. congruence.
  - rewrite field_set_in_other by auto. apply Hm, Hr'.
Qed.

Lemma marked_set_elsewhere section key v m :
  section <> "gpu" ->
  failures_marked h m -> failures_marked h (set_in section key v m).
Proof.
  intros Hs [[fields Hg] Hm]. split; [eapply section_set_in; eauto|].
  intros r Hr. rewrite field_set_in_other by auto. apply Hm, Hr.
Qed.

Lemma marked_initially ts m1 m2 m3 : failures_marked h (initial_metrics ts m1 m2 m3).
Proof.
  split; [eexists; reflexivity|].
  intros r _. exists NA. split; [destruct r; reflexivity | reflexivity].
Qed.
End Marked.


(** ** The blocks of a capture *)

Ltac reading_field H :=
  first [ exact (H Temp _) | exact (H Hotspot _) | exact (H Power _)
        | exact (H CoreClock _) | exact (H MemClock _) | exact (H Fan _)
        | exact (H Vram _) ].

Ltac pres leaf :=
  repeat first
    [ apply preserves_ret | apply preserves_raise | apply preserves_lift
    | apply preserves_print
    | apply preserves_set_field; solve [leaf]
    | apply preserves_try_except; [|intros ?]
    | apply preserves_try_finally
    | apply preserves_bind; [|intros ?]
    | match goal with
      | |- preserves _ (match ?x with _ => _ end) => destruct x
      end ].

Section Blocks.
Variable h : host.

(** The NVIDIA branch writes the fields of the seven readings and no
    other. *)
Lemma nvidia_block_ignored I : ignores_readings I -> preserves I (nvidia_block h).
Proof.
  intros HI. unfold nvidia_block, nvidia_readings, except_NotSupported.
  pres ltac:(reading_field HI).
Qed.

(** So does the AMD branch. *)
Lemma amd_block_ignored I : ignores_readings I -> preserves I (amd_block h).
Proof.
  intros HI.
  unfold amd_block, amd_readings, scaled, py_in, py_getitem, py_len, py_first, py_get,
    type_error.
  pres ltac:(reading_field HI).
Qed.

Lemma cpu_block_ignored I : ignores_cpu I -> preserves I (cpu_block h).
Proof.
  intros HI. unfold cpu_block, first_current. pres ltac:(exact (HI _ _)).
Qed.

Lemma gpu_branch_ignored self I : ignores_readings I -> preserves I (gpu_branch self h).
Proof.
  intros HI. unfold gpu_branch.
  destruct (_ && _); [now apply nvidia_block_ignored|].
  destruct (_ && _); [now apply amd_block_ignored | apply preserves_ret].
Qed.

(** The handlers of the NVIDIA branch print and go on: with a quiet
    shutdown the branch never raises, whatever the readings do. *)
Lemma nvidia_block_total : quiet_shutdown h = true -> total (nvidia_block h).
Proof.
  intros Hq. unfold nvidia_block. apply total_try_finally.
  - apply total_try_except. intros e. destruct (is_NVMLError e); apply total_print.
  - unfold quiet_shutdown in Hq. intros c. unfold try_except, lift.
    destruct (nvmlShutdown h) as [e|[]]; [|exact I].
    unfold raise. cbv beta iota. rewrite Hq. exact I.
Qed.

Lemma amd_block_total : total (amd_block h).
Proof.
  unfold amd_block. apply total_try_except. intros e.
  destruct (is_class FileNotFoundError e); [apply total_print|].
  destruct (is_class JSONDecodeError e); apply total_print.
Qed.

Lemma gpu_branch_total self : quiet_shutdown h = true -> total (gpu_branch self h).
Proof.
  intros Hq. unfold gpu_branch.
  destruct (_ && _); [now apply nvidia_block_total|].
  destruct (_ && _); [apply amd_block_total | intros c; exact I].
Qed.

Lemma cpu_block_total : psutil_ok h = true -> total (cpu_block h).
Proof.
  unfold psutil_ok, chosen_sensor. intros H.
  repeat (apply andb_prop in H as [H ?]).
  intros c. unfold cpu_block, bind, lift, first_current.
  destruct (cpu_percent h) as [e|usage]; [discriminate|]. cbn [ret].
  rewrite set_field_set_in.
  destruct (has_sensors_temperatures h); [|exact I].
  destruct (sensors_temperatures h) as [e|temps]; [discriminate|]. cbn [ret].
  destruct (Dict.get "coretemp" temps) as [[|q qs]|]; [discriminate| |].
  { cbn [ret]. rewrite set_field_set_in. exact I. }
  destruct (Dict.get "k10temp" temps) as [[|q qs]|]; [discriminate| |].
  { cbn [ret]. rewrite set_field_set_in. exact I. }
  destruct (Dict.get "cpu_thermal" temps) as [[|q qs]|]; [discriminate| |].
  { cbn [ret]. rewrite set_field_set_in. exact I. }
  exact I.
Qed.
End Blocks.


(** ** A whole capture *)

Section Capture.
Variable self : SystemMonitor.
Variable h : host.

(** The three memory readings that open the capture. *)
Lemma psutil_ok_memory :
  psutil_ok h = true ->
  exists m1 m2 m3,
    virtual_memory_1 h = inr m1 /\ virtual_memory_2 h = inr m2 /\
    virtual_memory_3 h = inr m3.
Proof.
  unfold psutil_ok. intros H. repeat (apply andb_prop in H as [H ?]).
  destruct (virtual_memory_1 h) as [|m1]; [discriminate|].
  destruct (virtual_memory_2 h) as [|m2]; [discriminate|].
  destruct (virtual_memory_3 h) as [|m3]; [discriminate|].
  exists m1, m2, m3. repeat split.
Qed.

Lemma capture_unfold m1 m2 m3 c :
  virtual_memory_1 h = inr m1 -> virtual_memory_2 h = inr m2 ->
  virtual_memory_3 h = inr m3 ->
  get_realtime_metrics self h c
  = (gpu_branch self h ;; cpu_block h ;; c' <- get_state ;; ret (metrics c'))
      (mk_capture (initial_metrics (now_reading h) m1 m2 m3) (printed c)).
Proof.
  intros E1 E2 E3. unfold get_realtime_metrics, gpu_branch.
  unfold bind at 1. rewrite E1. cbn [lift ret].
  unfold bind at 1. rewrite E2. cbn [lift ret].
  unfold bind at 1. rewrite E3. cbn [lift ret].
  reflexivity.
Qed.

(** From the initial dictionary to the snapshot returned: what the GPU
    branch establishes and the CPU block keeps holds of the snapshot. *)
Lemma capture_run (Q : dict -> Prop) :
  psutil_ok h = true ->
  (forall m1 m2 m3 c,
      virtual_memory_1 h = inr m1 -> virtual_memory_2 h = inr m2 ->
      virtual_memory_3 h = inr m3 ->
      metrics c = initial_metrics (now_reading h) m1 m2 m3 ->
      exists c', gpu_branch self h c = Ret tt c' /\ Q (metrics c')) ->
  ignores_cpu Q ->
  exists m c, get_realtime_metrics self h start = Ret m c /\ Q m /\ m = metrics c.
Proof.
  intros Hok Hgpu Hcpu.
  destruct (psutil_ok_memory Hok) as (m1 & m2 & m3 & E1 & E2 & E3).
  rewrite (@capture_unfold m1 m2 m3 start E1 E2 E3).
  destruct (Hgpu m1 m2 m3 (mk_capture (initial_metrics (now_reading h) m1 m2 m3) (printed start))
              E1 E2 E3 eq_refl) as (c1 & Eg & Hq).
  unfold bind at 1. rewrite Eg.
  destruct (@total_preserves_run _ Q (cpu_block h) c1 (@cpu_block_total h Hok)
              (@cpu_block_ignored h Q Hcpu) Hq) as ([] & c2 & Ec & Hq2).
  unfold bind at 1. rewrite Ec.
  exists (metrics c2), c2. auto.
Qed.

(** The same when the property holds from the start and the GPU branch
    keeps it. *)
Lemma capture_run_invariant (I : dict -> Prop) :
  quiet_shutdown h = true -> psutil_ok h = true ->
  (forall m1 m2 m3, I (initial_metrics (now_reading h) m1 m2 m3)) ->
  preserves I (gpu_branch self h) ->
  ignores_cpu I ->
  exists m c, get_realtime_metrics self h start = Ret m c /\ I m /\ m = metrics c.
Proof.
  intros Hq Hok Hinit Hgpu Hcpu. apply capture_run; [exact Hok | | exact Hcpu].
  intros m1 m2 m3 c _ _ _ Hc.
  destruct (@total_preserves_run _ I (gpu_branch self h) c (@gpu_branch_total h self Hq) Hgpu)
    as ([] & c' & E & HI); [rewrite Hc; apply Hinit | eauto].
Qed.
End Capture.

(** ** Failed readings are marked *)

Section MarkedWalk.
Variable h : host.
Let J := failures_marked h.

Lemma source_succeeded_temp x : temperature_gpu h = inr x -> succeeded (source h Temp) = true.
Proof. cbn [source]. now intros ->. Qed.
Lemma source_succeeded_hotspot x : temperature_mem h = inr x -> succeeded (source h Hotspot) = true.
Proof. cbn [source]. now intros ->. Qed.
Lemma source_succeeded_power x : power_usage h = inr x -> succeeded (source h Power) = true.
Proof. cbn [source]. now intros ->. Qed.
Lemma source_succeeded_core x : clock_graphics h = inr x -> succeeded (source h CoreClock) = true.
Proof. cbn [source]. now intros ->. Qed.
Lemma source_succeeded_mem x : clock_mem h = inr x -> succeeded (source h MemClock) = true.
Proof. cbn [source]. now intros ->. Qed.
Lemma source_succeeded_fan x : fan_speed h = inr x -> succeeded (source h Fan) = true.
Proof. cbn [source]. now intros ->. Qed.
Lemma source_succeeded_vram x : memory_info_used h = inr x -> succeeded (source h Vram) = true.
Proof. cbn [source]. now intros ->. Qed.

Lemma write_marker key v :
  is_unavailable v = true -> preserves J (set_field "gpu" key v).
Proof. intros Hv. apply preserves_set_field. intros m. now apply marked_set_unavailable. Qed.

(** A reading followed by the assignment of its field. *)
Lemma read_set {X : Type} (r : reading) (src : exn + X) (f : X -> json) :
  (forall x, src = inr x -> succeeded (source h r) = true) ->
  preserves J (x <- lift src ;; set_field "gpu" (key_of r) (f x)).
Proof.
  intros Hsrc. destruct src as [e|x].
  - intros c Hc. exact Hc.
  - intros c Hc. unfold bind, lift, ret. rewrite set_field_set_in.
    apply marked_set_own; [now apply (Hsrc x) | exact Hc].
Qed.

Lemma read_set_then {X B : Type} (r : reading) (src : exn + X) (f : X -> json)
    (rest : M capture B) :
  (forall x, src = inr x -> succeeded (source h r) = true) ->
  preserves J rest ->
  preserves J (x <- lift src ;; set_field "gpu" (key_of r) (f x) ;; rest).
Proof.
  intros Hsrc Hrest. destruct src as [e|x].
  - intros c Hc. exact Hc.
  - intros c Hc. unfold bind at 1. unfold lift, ret.
    apply preserves_bind; [|intros _; exact Hrest|exact Hc].
    apply preserves_set_field. intros m. apply marked_set_own. now apply (Hsrc x).
Qed.

(** A clock read under its guard, then assigned. *)
Lemma clock_set_then {B : Type} (r : reading) (has : bool) (src : exn + Z)
    (rest : M capture B) :
  (forall x, src = inr x -> succeeded (source h r) = true) ->
  preserves J rest ->
  preserves J
    (v <- (if has
           then except_NotSupported (c <- lift src ;; ret (JInt c)) (ret not_supported)
           else ret NA) ;;
     set_field "gpu" (key_of r) v ;; rest).
Proof.
  intros Hsrc Hrest.
  assert (Hset : forall v, is_unavailable v = true \/ succeeded (source h r) = true ->
                   preserves J (set_field "gpu" (key_of r) v ;; rest)).
  { intros v Hv. apply preserves_bind; [|intros _; exact Hrest].
    apply preserves_set_field. intros m.
    destruct Hv; [now apply marked_set_unavailable | now apply marked_set_own]. }
  destruct has; [|apply Hset; now left].
  destruct src as [e|x].
  - intros c Hc. unfold bind at 1. unfold except_NotSupported, try_except, bind, lift, raise.
    destruct (is_class NVMLError_NotSupported e); [|exact Hc].
    apply (Hset not_supported); [now left | exact Hc].
  - intros c Hc. unfold bind at 1. unfold except_NotSupported, try_except, bind, lift, ret.
    apply (Hset (JInt x)); [right; now apply (Hsrc x) | exact Hc].
Qed.

Lemma nvidia_readings_marked : preserves J (nvidia_readings h).
Proof.
  unfold nvidia_readings.
  apply preserves_bind; [apply preserves_lift | intros _].
  apply preserves_bind; [apply preserves_lift | intros _].
  apply preserves_bind; [|intros _].
  { destruct (has_NVML_TEMP_GPU h);
      [apply (@read_set _ Temp); apply source_succeeded_temp | now apply write_marker]. }
  apply preserves_bind; [|intros _].
  { destruct (has_NVML_TEMP_GPU_MEM h); [|now apply write_marker].
    unfold except_NotSupported. apply preserves_try_except.
    - apply (@read_set _ Hotspot); apply source_succeeded_hotspot.
    - intros e. destruct (is_class NVMLError_NotSupported e);
        [now apply write_marker | apply preserves_raise]. }
  apply (@read_set_then _ _ Power); [apply source_succeeded_power|].
  apply (@clock_set_then _ CoreClock); [apply source_succeeded_core|].
  apply (@clock_set_then _ MemClock); [apply source_succeeded_mem|].
  apply preserves_bind; [|intros _].
  { unfold except_NotSupported. apply preserves_try_except.
    - apply (@read_set _ Fan); apply source_succeeded_fan.
    - intros e. destruct (is_class NVMLError_NotSupported e);
        [now apply write_marker | apply preserves_raise]. }
  apply (@read_set _ Vram); apply source_succeeded_vram.
Qed.

Lemma nvidia_block_marked : preserves J (nvidia_block h).
Proof.
  unfold nvidia_block. apply preserves_try_finally.
  - apply preserves_try_except; [apply nvidia_readings_marked|].
    intros e. destruct (is_NVMLError e); apply preserves_print.
  - apply preserves_try_except; [apply preserves_lift|].
    intros e. destruct (is_class _ e); [apply preserves_ret | apply preserves_raise].
Qed.
End MarkedWalk.


(** ** What a capture returns *)

Lemma complete_ignores_readings : ignores_readings (fun m => complete m = true).
Proof. intros r v m. apply complete_set_in. Qed.

Lemma complete_ignores_cpu : ignores_cpu (fun m => complete m = true).
Proof. intros key v m. apply complete_set_in. Qed.

Lemma marked_ignores_cpu h : ignores_cpu (failures_marked h).
Proof. intros key v m. apply marked_set_elsewhere. discriminate. Qed.

(** ** Placeholders *)

Lemma all_NA_other keys key v m :
  ~ In key keys -> all_NA keys m -> all_NA keys (set_in "gpu" key v m).
Proof.
  intros Hn H k Hk. rewrite field_set_in_other; [now apply H|].
  right. intros ->. contradiction.
Qed.

Lemma all_NA_cpu keys : ignores_cpu (all_NA keys).
Proof.
  intros key v m H k Hk. rewrite field_set_in_other; [now apply H|]. left. discriminate.
Qed.

Lemma all_NA_initial ts m1 m2 m3 : all_NA gpu_keys (initial_metrics ts m1 m2 m3).
Proof.
  intros k Hk. cbn in Hk.
  repeat (destruct Hk as [<-|Hk]; [reflexivity|]). destruct Hk.
Qed.

Lemma all_NA_incl keys keys' m : incl keys keys' -> all_NA keys' m -> all_NA keys m.
Proof. intros Hi H k Hk. apply H, Hi, Hk. Qed.

Lemma placeholders_ignore_readings : ignores_readings (all_NA placeholders).
Proof.
  intros r v m. apply all_NA_other.
  destruct r; cbn; intuition discriminate.
Qed.




(** ** A failure outside the guards *)

Lemma preserves_failed_read {X B : Type} (I : dict -> Prop) (e : exn)
    (f : X -> M capture B) :
  preserves I (x <- lift (inl e) ;; f x).
Proof. intros c Hc. exact Hc. Qed.

Lemma power_failure_walk (h : host) (e : exn) :
  power_usage h = inl e ->
  preserves (all_NA (map key_of (Power :: after_power))) (nvidia_block h).
Proof.
  intros E.
  assert (Hleaf : forall key v m,
             ~ In key (map key_of (Power :: after_power)) ->
             all_NA (map key_of (Power :: after_power)) m ->
             all_NA (map key_of (Power :: after_power)) (set_in "gpu" key v m))
    by (intros; now apply all_NA_other).
  unfold nvidia_block. apply preserves_try_finally.
  - apply preserves_try_except;
      [|intros e'; destruct (is_NVMLError e'); apply preserves_print].
    unfold nvidia_readings. rewrite E.
    apply preserves_bind; [apply preserves_lift | intros _].
    apply preserves_bind; [apply preserves_lift | intros _].
    apply preserves_bind; [|intros _].
    { unfold except_NotSupported.
      pres ltac:(intros m; apply Hleaf; cbn; intuition discriminate). }
    apply preserves_bind; [|intros _].
    { unfold except_NotSupported.
      pres ltac:(intros m; apply Hleaf; cbn; intuition discriminate). }
    apply preserves_failed_read.
  - apply preserves_try_except; [apply preserves_lift|].
    intros e'. destruct (is_class _ e'); [apply preserves_ret | apply preserves_raise].
Qed.



(** ** A failure of psutil *)



(** ** A vendor or system without a branch *)




(** ** Readings the card does not support *)

Section Isolation.
Variable h : host.
Hypothesis Hready : nvml_ready h = true.
Hypothesis Hu : only_unsupported h.

Lemma isolated_set r rs v m :
  v = stored h r ->
  isolated h rs m -> isolated h (r :: rs) (set_in "gpu" (key_of r) v m).
Proof.
  intros -> [[fields Hg] Hm]. split; [eapply section_set_in; eauto|].
  intros r' Hr'. destruct (string_dec (key_of r) (key_of r')) as [E|Hk].
  - apply key_of_inj in E. subst r'. eapply field_set_in_same; eauto.
  - rewrite field_set_in_other by auto.
    destruct Hr' as [->|Hr']; [congruence | now apply Hm].
Qed.

(** A reading outside the guards, which by hypothesis succeeds. *)
Lemma step_unguarded {X : Type} (r : reading) (src : exn + X) (f : X -> json) rs :
  source h r = on_success f src -> guarded r = false ->
  triple (isolated h rs) (x <- lift src ;; set_field "gpu" (key_of r) (f x))
    (fun _ => isolated h (r :: rs)) (fun _ => False).
Proof.
  intros Hs Hg. destruct src as [e|x]; cbn [on_success] in Hs.
  - destruct (Hu r Hs) as [Hg' _]. congruence.
  - intros c Hc. unfold bind, lift, ret.
    rewrite set_field_set_in. cbn [metrics].
    apply isolated_set; [|exact Hc]. unfold stored. now rewrite Hs.
Qed.

Lemma step_unguarded_then {X B : Type} (r : reading) (src : exn + X) (f : X -> json)
    rs (rest : M capture B) (Q : B -> dict -> Prop) :
  source h r = on_success f src -> guarded r = false ->
  triple (isolated h (r :: rs)) rest Q (fun _ => False) ->
  triple (isolated h rs) (x <- lift src ;; set_field "gpu" (key_of r) (f x) ;; rest)
    Q (fun _ => False).
Proof.
  intros Hs Hg Hrest c Hc. pose proof (@step_unguarded X r src f rs Hs Hg c Hc) as H.
  revert H. unfold bind. destruct (lift src c) as [x c1|e c1]; [|auto].
  destruct (set_field "gpu" (key_of r) (f x) c1) as [[] c2|e c2]; [|auto].
  apply Hrest.
Qed.

(** A reading under its own guard, assigned inside the [try]. *)
Lemma step_guarded (r : reading) (src : exn + Z) rs :
  source h r = on_success JInt src ->
  triple (isolated h rs)
    (except_NotSupported
       (x <- lift src ;; set_field "gpu" (key_of r) (JInt x))
       (set_field "gpu" (key_of r) not_supported))
    (fun _ => isolated h (r :: rs)) (fun _ => False).
Proof.
  intros Hs. destruct src as [e|x]; cbn [on_success] in Hs.
  - destruct (Hu r Hs) as [_ Hc]. intros c HI.
    unfold except_NotSupported, try_except, bind, lift, raise.
    rewrite Hc. rewrite set_field_set_in. cbn [metrics].
    apply isolated_set; [|exact HI]. unfold stored. now rewrite Hs.
  - intros c HI.
    unfold except_NotSupported, try_except, bind, lift, ret.
    rewrite set_field_set_in. cbn [metrics].
    apply isolated_set; [|exact HI]. unfold stored. now rewrite Hs.
Qed.

(** A clock read under its guard and assigned after it. *)
Lemma step_clock {B : Type} (r : reading) (src : exn + Z)
    rs (rest : M capture B) (Q : B -> dict -> Prop) :
  source h r = on_success JInt src ->
  triple (isolated h (r :: rs)) rest Q (fun _ => False) ->
  triple (isolated h rs)
    (v <- except_NotSupported (c <- lift src ;; ret (JInt c)) (ret not_supported) ;;
     set_field "gpu" (key_of r) v ;; rest)
    Q (fun _ => False).
Proof.
  intros Hs Hrest. destruct src as [e|x]; cbn [on_success] in Hs.
  - destruct (Hu r Hs) as [_ Hc]. intros c HI.
    unfold bind at 1. unfold except_NotSupported, try_except, bind, lift, raise.
    rewrite Hc. unfold ret at 1. rewrite set_field_set_in. apply Hrest. cbn [metrics].
    apply isolated_set; [|exact HI]. unfold stored. now rewrite Hs.
  - intros c HI.
    unfold bind at 1. unfold except_NotSupported, try_except, bind, lift, ret.
    rewrite set_field_set_in. apply Hrest. cbn [metrics].
    apply isolated_set; [|exact HI]. unfold stored. now rewrite Hs.
Qed.

Lemma step_opened {B : Type} P (rest : M capture B) (Q : B -> dict -> Prop) E :
  triple P rest Q E -> triple P (lift (inr tt) ;; rest) Q E.
Proof. intros H c Hc. unfold bind, lift. now apply H. Qed.

Lemma nvidia_readings_isolate :
  triple (isolated h []) (nvidia_readings h)
    (fun _ => isolated h [Vram; Fan; MemClock; CoreClock; Power; Hotspot; Temp])
    (fun _ => False).
Proof.
  pose proof Hready as R. unfold nvml_ready in R.
  apply andb_prop in R as [R H6]. apply andb_prop in R as [R H5].
  apply andb_prop in R as [R H4]. apply andb_prop in R as [R H3].
  apply andb_prop in R as [H1 H2].
  unfold nvidia_readings. rewrite H1, H2, H3, H4.
  destruct (nvmlInit h) as [|[]]; [discriminate|].
  destruct (nvmlDeviceGetHandleByIndex h) as [|[]]; [discriminate|].
  cbv iota.
  apply step_opened. apply step_opened.
  eapply triple_bind;
    [apply (@step_unguarded _ Temp (temperature_gpu h) JInt); reflexivity | intros []].
  eapply triple_bind;
    [apply (@step_guarded Hotspot (temperature_mem h)); reflexivity | intros []].
  apply (@step_unguarded_then _ _ Power (power_usage h) (fun p => JFloat (inject_Z p / 1000)));
    [reflexivity | reflexivity |].
  apply (@step_clock _ CoreClock (clock_graphics h)); [reflexivity|].
  apply (@step_clock _ MemClock (clock_mem h)); [reflexivity|].
  eapply triple_bind;
    [apply (@step_guarded Fan (fan_speed h)); reflexivity | intros []].
  apply (@step_unguarded _ Vram (memory_info_used h) (fun x => JInt (x / (1024 * 1024))));
    reflexivity.
Qed.

(** With the device opened and every failure a [NotSupported] under a
    guard, the NVIDIA branch returns and each field holds what its source
    yields, or the marker of an unsupported reading. *)
Lemma nvidia_block_isolates c :
  quiet_shutdown h = true ->
  isolated h [] (metrics c) ->
  exists c',
    nvidia_block h c = Ret tt c' /\
    forall r, field "gpu" (key_of r) (metrics c') = Some (stored h r).
Proof.
  intros Hq Hc. pose proof (nvidia_readings_isolate c Hc) as H.
  unfold nvidia_block, try_finally, try_except.
  destruct (nvidia_readings h c) as [[] c1|e c1]; [|destruct H].
  unfold quiet_shutdown in Hq. unfold lift.
  destruct (nvmlShutdown h) as [e|[]].
  - unfold raise. rewrite Hq. exists c1. split; [reflexivity|].
    intros r. apply H. destruct r; cbn; auto 10.
  - exists c1. split; [reflexivity|].
    intros r. apply H. destruct r; cbn; auto 10.
Qed.
End Isolation.

(** ** The single-failure contract *)

Lemma only_unsupported_no_fan : only_unsupported no_fan_reading.
Proof.
  intros r e H. destruct r; cbn in H; try discriminate H.
  injection H as <-. split; reflexivity.
Qed.

Lemma isolated_ignores_cpu h :
  ignores_cpu (fun m => forall r, field "gpu" (key_of r) m = Some (stored h r)).
Proof.
  intros key v m H r. rewrite field_set_in_other; [apply H | left; discriminate].
Qed.




End MonitorFacts.
